(** * TAXII to CrowdStrike IOC ingestion: a shallow embedding

    The two scripts of the repository are embedded as Rocq functions:

    - [Ingestor]: [crowdstrike_ioc_ingestor.py], the first version of the
      tool, which classifies every STIX pattern (domain, ipv4, sha256);
    - [Taxii]: [taxii_to_crowdstrike.py], the current version, with retries,
      pagination, the existence check and rate limiting.

    Python values that come out of JSON are kept dynamically typed
    ([pyval]); exceptions are values of [exn]; code that talks to the
    network, the clock or the log runs in the monad [M], which threads a
    [World] and keeps its changes when an exception is raised, as Python
    does. *)

From Stdlib Require Import ZArith List String Ascii Bool Lia.
Import ListNotations.
Local Open Scope string_scope.
Local Open Scope Z_scope.

(** ** Python values and exceptions *)

Set Warnings "-register-all".

(** What [response.json()] can give back.  JSON numbers are kept as
    integers; no function of the scripts computes with one. *)
Inductive pyval : Type :=
| PNone
| PBool (b : bool)
| PInt (z : Z)
| PStr (s : string)
| PList (l : list pyval)
| PDict (d : list (string * pyval)).

(** The exceptions the scripts can meet; every one is a subclass of
    Python's [Exception], so [except Exception] catches each of them. *)
Inductive exn : Type :=
| IndexError
| KeyError (key : string)
| TypeError
| AttributeError
| ValueError
| OverflowError
| JSONDecodeError
| ConnectionError.

(** Outcome of evaluating an expression or running a statement.
    [OutOfFuel] belongs to the model only: a [while True] loop that was
    given too few iterations. *)
Inductive result (A : Type) : Type :=
| Ret (a : A)
| Raise (e : exn)
| OutOfFuel.
Arguments Ret {A} a.
Arguments Raise {A} e.
Arguments OutOfFuel {A}.

Definition rbind {A B : Type} (r : result A) (k : A -> result B) : result B :=
  match r with
  | Ret a => k a
  | Raise e => Raise e
  | OutOfFuel => OutOfFuel
  end.

Declare Scope py_scope.
Delimit Scope py_scope with py.
Notation "x <~ e ;; k" := (rbind e (fun x => k))
  (at level 61, e at next level, right associativity) : py_scope.

(** Truth value of an object, as [if x:] and [not x] take it. *)
Definition truthy (v : pyval) : bool :=
  match v with
  | PNone => false
  | PBool b => b
  | PInt z => negb (z =? 0)
  | PStr s => negb (s =? "")%string
  | PList l => match l with [] => false | _ :: _ => true end
  | PDict d => match d with [] => false | _ :: _ => true end
  end.

(** A dict is the list of its items; a key is looked up from the front. *)
Fixpoint lookup (k : string) (d : list (string * pyval)) : option pyval :=
  match d with
  | [] => None
  | (k', v) :: d' => if (k =? k')%string then Some v else lookup k d'
  end.

(** [v.get(k, default)]; only a dict has the method. *)
Definition py_get_default (v : pyval) (k : string) (default : pyval) : result pyval :=
  match v with
  | PDict d => Ret (match lookup k d with Some x => x | None => default end)
  | _ => Raise AttributeError
  end.

(** [v.get(k)] *)
Definition py_get (v : pyval) (k : string) : result pyval :=
  py_get_default v k PNone.

(** [v[k]] with a string key [k]. *)
Definition py_getitem (v : pyval) (k : string) : result pyval :=
  match v with
  | PDict d => match lookup k d with Some x => Ret x | None => Raise (KeyError k) end
  | _ => Raise TypeError
  end.

(** [v == s] for a string literal [s]. *)
Definition py_eq_str (v : pyval) (s : string) : bool :=
  match v with
  | PStr t => (t =? s)%string
  | _ => false
  end.

(** [for obj in v]: the items a [for] visits. *)
Definition py_iter (v : pyval) : result (list pyval) :=
  match v with
  | PList l => Ret l
  | PDict d => Ret (map (fun kv => PStr (fst kv)) d)
  | PStr s => Ret (map (fun c => PStr (String c "")) (list_ascii_of_string s))
  | _ => Raise TypeError
  end.

(** ** Strings *)

(** [needle in hay] on two strings: [needle] occurs in [hay]. *)
Fixpoint str_contains (needle hay : string) : bool :=
  prefix needle hay ||
  match hay with
  | EmptyString => false
  | String _ hay' => str_contains needle hay'
  end.

(** [needle in v] *)
Definition py_in (needle : string) (v : pyval) : result bool :=
  match v with
  | PStr s => Ret (str_contains needle s)
  | PList l => Ret (existsb (fun x => py_eq_str x needle) l)
  | PDict d => Ret (match lookup needle d with Some _ => true | None => false end)
  | _ => Raise TypeError
  end.

(** [s.split(sep)] for a separator of one character: never empty. *)
Fixpoint split (sep : ascii) (s : string) : list string :=
  match s with
  | EmptyString => [EmptyString]
  | String c s' =>
      if Ascii.eqb c sep then EmptyString :: split sep s'
      else match split sep s' with
           | [] => [String c EmptyString]
           | h :: t => String c h :: t
           end
  end.

Definition quote : ascii := "'"%char.

(** [v.split("'")] *)
Definition py_split_quote (v : pyval) : result (list string) :=
  match v with
  | PStr s => Ret (split quote s)
  | _ => Raise AttributeError
  end.

(** [l[1]] *)
Definition index1 (l : list string) : result string :=
  match nth_error l 1 with
  | Some x => Ret x
  | None => Raise IndexError
  end.

(** [s + v] for a string [s]: only a string can be appended. *)
Definition py_add_str (s : string) (v : pyval) : result string :=
  match v with
  | PStr t => Ret (s ++ t)
  | _ => Raise TypeError
  end.

(** The text an f-string builds, kept as its pieces: the literal parts and
    the values it interpolates (each rendered by [str]). *)
Inductive fragment : Type :=
| Lit (s : string)
| Fmt (v : pyval).

Definition text : Type := list fragment.

(** ** Dates: [datetime], [timedelta], [strftime] *)

(** A naive UTC [datetime] is the count of microseconds since
    1970-01-01T00:00:00. *)
Definition datetime : Type := Z.

Definition usec_per_day : Z := 86400 * 1000000.

(** [timedelta(days=n)] *)
Definition timedelta_days (n : Z) : Z := n * usec_per_day.

(** [datetime.max], 9999-12-31T23:59:59.999999 *)
Definition datetime_max : datetime := 2932897 * usec_per_day - 1.
(** [datetime.min], 0001-01-01T00:00:00 *)
Definition datetime_min : datetime := - 719162 * usec_per_day.

(** [t + d]; a result outside [datetime.min .. datetime.max] overflows. *)
Definition datetime_add (t : datetime) (d : Z) : result datetime :=
  let r := t + d in
  if (r <? datetime_min) || (datetime_max <? r) then Raise OverflowError
  else Ret r.

(** Year, month and day of a day count (proleptic Gregorian calendar). *)
Definition civil_from_days (days : Z) : Z * Z * Z :=
  let z := days + 719468 in
  let era := z / 146097 in
  let doe := z - era * 146097 in
  let yoe := (doe - doe / 1460 + doe / 36524 - doe / 146096) / 365 in
  let doy := doe - (365 * yoe + yoe / 4 - yoe / 100) in
  let mp := (5 * doy + 2) / 153 in
  let d := doy - (153 * mp + 2) / 5 + 1 in
  let m := if mp <? 10 then mp + 3 else mp - 9 in
  let y := yoe + era * 400 + (if m <=? 2 then 1 else 0) in
  (y, m, d).

Definition digit (z : Z) : ascii := ascii_of_nat (48 + Z.to_nat (z mod 10)).

Definition pad2 (z : Z) : string :=
  String (digit (z / 10)) (String (digit z) EmptyString).

Definition pad4 (z : Z) : string :=
  String (digit (z / 1000)) (String (digit (z / 100)) (pad2 z)).

(** [t.strftime('%Y-%m-%dT%H:%M:%SZ')]: the microseconds are dropped. *)
Definition strftime (t : datetime) : string :=
  let secs := t / 1000000 in
  let '(y, m, d) := civil_from_days (secs / 86400) in
  let sod := secs mod 86400 in
  pad4 y ++ "-" ++ pad2 m ++ "-" ++ pad2 d ++ "T" ++
  pad2 (sod / 3600) ++ ":" ++ pad2 (sod mod 3600 / 60) ++ ":" ++ pad2 (sod mod 60) ++ "Z".


(** ** The world outside the scripts *)

Inductive method : Type := GET | POST | PATCH.

(** What [requests] is given as the body of a request. *)
Inductive body : Type :=
| NoBody
| FormData (fields : list (string * string))
| RawData (data : text)
| JsonBody (v : pyval).

Record Request : Type := mkRequest {
  req_method : method;
  req_url : text;
  req_headers : list (string * text);
  req_auth : option (string * string);
  req_body : body
}.

(** A response: its status, its body as text, and what [response.json()]
    makes of the body ([None]: the body is not JSON). *)
Record Response : Type := mkResponse {
  status_code : Z;
  resp_text : string;
  resp_json : option pyval
}.

(** What the network does with one request, after [latency] microseconds:
    it answers, or [requests] raises. *)
Inductive NetEvent : Type :=
| Answer (latency : Z) (r : Response)
| Fault (latency : Z) (e : exn).

(** The state the scripts act on: what the network will do with the next
    requests, the requests sent so far, the clock (in microseconds), the
    pauses taken by [time.sleep], the log file and the standard output.
    Lists grow at their end. *)
Record World : Type := mkWorld {
  net : list NetEvent;
  sent : list Request;
  clock : datetime;
  slept : list Z;
  logfile : list text;
  stdout : list text
}.

(** ** The monad of statements *)

Definition M (A : Type) : Type := World -> result A * World.

Definition ret {A : Type} (a : A) : M A := fun w => (Ret a, w).

Definition bind {A B : Type} (m : M A) (k : A -> M B) : M B :=
  fun w =>
    match m w with
    | (Ret a, w') => k a w'
    | (Raise e, w') => (Raise e, w')
    | (OutOfFuel, w') => (OutOfFuel, w')
    end.

(** An expression evaluated inside a statement. *)
Definition lift {A : Type} (r : result A) : M A := fun w => (r, w).

Definition out_of_fuel {A : Type} : M A := fun w => (OutOfFuel, w).

(** [try: return func() / except Exception: handler] *)
Definition try_return {A B : Type} (func : M A) (done : A -> M B)
    (handler : exn -> M B) : M B :=
  fun w =>
    match func w with
    | (Ret a, w') => done a w'
    | (Raise e, w') => handler e w'
    | (OutOfFuel, w') => (OutOfFuel, w')
    end.

Notation "x <- m ;; k" := (bind m (fun x => k))
  (at level 61, m at next level, right associativity) : py_scope.
Notation "m ;; k" := (bind m (fun _ => k))
  (at level 61, right associativity) : py_scope.
Local Open Scope py_scope.

(** [print(message)] *)
Definition print (message : text) : M unit :=
  fun w => (Ret tt, mkWorld (net w) (sent w) (clock w) (slept w) (logfile w)
                      (stdout w ++ [message])).

(** [logging.info(message)] *)
Definition logging_info (message : text) : M unit :=
  fun w => (Ret tt, mkWorld (net w) (sent w) (clock w) (slept w)
                      (logfile w ++ [message]) (stdout w)).

(** The longest pause, in seconds, that [time.sleep] can take for an
    integer: beyond it, on either side, the conversion of the argument
    overflows. *)
Definition sleep_max : Z := 9223372036.

(** [time.sleep(seconds)] for an integer: the argument is converted first
    ([OverflowError] when it is out of range), then refused when negative. *)
Definition time_sleep (seconds : Z) : M unit :=
  fun w =>
    if (seconds <? - sleep_max) || (sleep_max <? seconds) then (Raise OverflowError, w)
    else if seconds <? 0 then (Raise ValueError, w)
    else (Ret tt, mkWorld (net w) (sent w) (clock w + seconds * 1000000)
                    (slept w ++ [seconds]) (logfile w) (stdout w)).

(** [datetime.utcnow()] *)
Definition utcnow : M datetime := fun w => (Ret (clock w), w).

(** [requests.request(...)]: the request goes out, then the network's next
    event decides; with no event left nothing answers. *)
Definition requests_send (r : Request) : M Response :=
  fun w =>
    match net w with
    | [] => (Raise ConnectionError,
             mkWorld [] (sent w ++ [r]) (clock w) (slept w) (logfile w) (stdout w))
    | Answer latency resp :: rest =>
        (Ret resp,
         mkWorld rest (sent w ++ [r]) (clock w + latency) (slept w) (logfile w) (stdout w))
    | Fault latency e :: rest =>
        (Raise e,
         mkWorld rest (sent w ++ [r]) (clock w + latency) (slept w) (logfile w) (stdout w))
    end.

(** [response.json()] *)
Definition json (response : Response) : result pyval :=
  match resp_json response with
  | Some v => Ret v
  | None => Raise JSONDecodeError
  end.

(** [for x in xs: body(x)] *)
Fixpoint for_each {A : Type} (xs : list A) (body : A -> M unit) : M unit :=
  match xs with
  | [] => ret tt
  | x :: xs' => body x ;; for_each xs' body
  end.

(** The value [pattern.split("'")[1]] of both scripts. *)
Definition quoted_value (pattern : pyval) : result string :=
  parts <~ py_split_quote pattern ;;
  index1 parts.

(** ** [crowdstrike_ioc_ingestor.py] *)

Module Ingestor.

Definition CLIENT_ID : string := "your_client_id".
Definition CLIENT_SECRET : string := "your_client_secret".

Definition get_crowdstrike_token (client_id client_secret : string) : M pyval :=
  let auth_url := [Lit "https://api.crowdstrike.com/oauth2/token"] in
  let auth_data := [("client_id", client_id); ("client_secret", client_secret)] in
  response <- requests_send (mkRequest POST auth_url [] None (FormData auth_data)) ;;
  if status_code response =? 200 then
    j <- lift (json response) ;;
    lift (py_getitem j "access_token")
  else
    print [Lit "Error fetching token: "; Fmt (PInt (status_code response));
           Lit " "; Fmt (PStr (resp_text response))] ;;
    ret PNone.

(** The dict [transform_stix_to_ioc] returns. *)
Definition ioc_dict (ioc_type value : string) : pyval :=
  PDict [("type", PStr ioc_type);
         ("value", PStr value);
         ("action", PStr "detect");
         ("source", PStr "TAXII Import")].

Definition transform_stix_to_ioc (stix_indicator : pyval) : M pyval :=
  pattern <- lift (py_get_default stix_indicator "pattern" (PStr "")) ;;
  is_domain <- lift (py_in "domain-name" pattern) ;;
  if is_domain then
    value <- lift (quoted_value pattern) ;;
    ret (ioc_dict "domain" value)
  else
    is_ipv4 <- lift (py_in "ipv4-addr" pattern) ;;
    if is_ipv4 then
      value <- lift (quoted_value pattern) ;;
      ret (ioc_dict "ipv4" value)
    else
      is_hash <- lift (py_in "file:hashes" pattern) ;;
      if is_hash then
        value <- lift (quoted_value pattern) ;;
        ret (ioc_dict "sha256" value)
      else
        print [Lit "Unsupported STIX pattern: "; Fmt pattern] ;;
        ret PNone.

(** The inner loop of [get_stix_objects], over the objects of one block;
    [iocs] is the list built so far. *)
Fixpoint collect_block (objects : list pyval) (iocs : list pyval) : M (list pyval) :=
  match objects with
  | [] => ret iocs
  | obj :: objects' =>
      ty <- lift (py_getitem obj "type") ;;
      if py_eq_str ty "indicator" then
        ioc_data <- transform_stix_to_ioc obj ;;
        if truthy ioc_data then collect_block objects' (iocs ++ [ioc_data])
        else collect_block objects' iocs
      else collect_block objects' iocs
  end.

Fixpoint collect_blocks (blocks : list pyval) (iocs : list pyval) : M (list pyval) :=
  match blocks with
  | [] => ret iocs
  | block :: blocks' =>
      print [Lit "STIX Object: "; Fmt block] ;;
      objects <- lift (py_iter block) ;;
      iocs' <- collect_block objects iocs ;;
      collect_blocks blocks' iocs'
  end.

(** [get_stix_objects]; [stix_objects] stands for what the cabby client's
    [poll] hands over, each block given as the list [block.content.objects]. *)
Definition get_stix_objects (TAXII_COLLECTION : string) (stix_objects : list pyval)
  : M (list pyval) :=
  print [Lit "Polling collection: "; Fmt (PStr TAXII_COLLECTION)] ;;
  collect_blocks stix_objects [].

Definition push_iocs_to_crowdstrike (iocs : list pyval) (token : pyval) : M unit :=
  let ioc_url := [Lit "https://api.crowdstrike.com/indicators/entities/iocs/v1"] in
  let headers := [("Authorization", [Lit "Bearer "; Fmt token]);
                  ("Content-Type", [Lit "application/json"])] in
  for_each iocs (fun ioc =>
    print [Lit "Pushing IOC to CrowdStrike: "; Fmt ioc] ;;
    response <- requests_send (mkRequest POST ioc_url headers None (JsonBody ioc)) ;;
    if status_code response =? 201 then
      print [Lit "IOC successfully pushed: "; Fmt ioc]
    else
      print [Lit "Error pushing IOC: "; Fmt (PInt (status_code response));
             Lit " "; Fmt (PStr (resp_text response))]).

Definition main (TAXII_COLLECTION : string) (stix_objects : list pyval) : M unit :=
  token <- get_crowdstrike_token CLIENT_ID CLIENT_SECRET ;;
  if negb (truthy token) then ret tt
  else
    iocs <- get_stix_objects TAXII_COLLECTION stix_objects ;;
    if truthy (PList iocs) then push_iocs_to_crowdstrike iocs token
    else ret tt.

End Ingestor.

(** ** [taxii_to_crowdstrike.py] *)

(** The settings the script reads from the environment when it is loaded. *)
Record Config : Type := mkConfig {
  CLIENT_ID : string;
  CLIENT_SECRET : string;
  TAXII_SERVER_URL : string;
  TAXII_USERNAME : string;
  TAXII_PASSWORD : string;
  TAXII_COLLECTION : string;
  RATE_LIMIT_DELAY : Z
}.

Module Taxii.

Definition MAX_RETRIES : Z := 3.

Definition log (message : text) : M unit :=
  logging_info message ;;
  print message.

(** The [while n <= MAX_RETRIES] loop of [retry]. *)
Fixpoint retry_loop {A : Type} (fuel : nat) (func : M A) (n delay : Z)
  : M (option A) :=
  if n <=? MAX_RETRIES then
    match fuel with
    | O => out_of_fuel
    | S fuel' =>
        try_return func
          (fun a => ret (Some a))
          (fun e =>
             log [Lit "Command failed. Attempt "; Fmt (PInt n); Lit "/";
                  Fmt (PInt MAX_RETRIES); Lit ". Retrying in "; Fmt (PInt delay);
                  Lit " seconds..."] ;;
             time_sleep delay ;;
             retry_loop fuel' func (n + 1) (delay * 2))
    end
  else
    log [Lit "The command has failed after maximum retry attempts."] ;;
    ret None.

(** [retry(func, *args)]: [func] comes with its arguments applied; the
    result is [Some] of what [func] returned, or [None] for the
    function's own [return None]. *)
Definition retry {A : Type} (func : M A) : M (option A) :=
  retry_loop (Z.to_nat MAX_RETRIES) func 1 5.

(** The loop body of the comprehension of [poll_taxii_server]:
    [[obj['pattern'].split("'")[1] for obj in ... if obj['type'] == 'indicator']]. *)
Fixpoint indicator_values (objects : list pyval) : result (list string) :=
  match objects with
  | [] => Ret []
  | obj :: objects' =>
      ty <~ py_getitem obj "type" ;;
      if py_eq_str ty "indicator" then
        pattern <~ py_getitem obj "pattern" ;;
        value <~ quoted_value pattern ;;
        values <~ indicator_values objects' ;;
        Ret (value :: values)
      else indicator_values objects'
  end.

Definition page_iocs (taxii_data : pyval) : result (list string) :=
  objects <~ py_get_default taxii_data "objects" (PList []) ;;
  objs <~ py_iter objects ;;
  indicator_values objs.

(** [datetime.utcnow() + timedelta(days=90)], formatted. *)
Definition calculate_expiration_date : M string :=
  now <- utcnow ;;
  expiration_date <- lift (datetime_add now (timedelta_days 90)) ;;
  ret (strftime expiration_date).

Definition ioc_endpoint : text :=
  [Lit "https://api.crowdstrike.com/indicators/entities/iocs/v1"].

Definition payload_of (ioc expiration_date : string) : pyval :=
  PDict [("type", PStr "domain");
         ("value", PStr ioc);
         ("action", PStr "detect");
         ("valid_until", PStr expiration_date);
         ("source", PStr "TAXII Import")].

(** [j.get('meta', {}).get('pagination', {}).get('next_token')] *)
Definition pagination_token (j : pyval) : result pyval :=
  meta <~ py_get_default j "meta" (PDict []) ;;
  pagination <~ py_get_default meta "pagination" (PDict []) ;;
  py_get pagination "next_token".

Section WithConfig.

Variable cfg : Config.

Definition rate_limit : M unit :=
  log [Lit "Rate limiting: Waiting for "; Fmt (PInt (RATE_LIMIT_DELAY cfg));
       Lit " seconds before the next request..."] ;;
  time_sleep (RATE_LIMIT_DELAY cfg).

Definition get_crowdstrike_token : M pyval :=
  log [Lit "Fetching CrowdStrike OAuth2 token..."] ;;
  let url := [Lit "https://api.crowdstrike.com/oauth2/token"] in
  let data := [("client_id", CLIENT_ID cfg); ("client_secret", CLIENT_SECRET cfg)] in
  response <- requests_send (mkRequest POST url [] None (FormData data)) ;;
  if status_code response =? 200 then
    j <- lift (json response) ;;
    access_token <- lift (py_get j "access_token") ;;
    log [Lit "CrowdStrike OAuth2 token acquired."] ;;
    ret access_token
  else
    log [Lit "Failed to get OAuth2 token: "; Fmt (PInt (status_code response));
         Lit " "; Fmt (PStr (resp_text response))] ;;
    ret PNone.

Definition poll_url : text :=
  [Fmt (PStr (TAXII_SERVER_URL cfg)); Lit "/collections/";
   Fmt (PStr (TAXII_COLLECTION cfg)); Lit "/poll"].

Definition poll_request (data : text) : Request :=
  mkRequest POST poll_url
    [("Content-Type", [Lit "application/xml"])]
    (Some (TAXII_USERNAME cfg, TAXII_PASSWORD cfg))
    (RawData data).

(** The [while True] loop of [poll_taxii_server]; [break] is the
    [return all_iocs] that follows the loop. *)
Fixpoint poll_loop (fuel : nat) (next_token : pyval) (all_iocs : list string)
  : M (list string) :=
  match fuel with
  | O => out_of_fuel
  | S fuel' =>
      next <- lift (if truthy next_token then py_add_str " next=" next_token
                    else Ret "") ;;
      let data := [Lit "<taxii_poll_request_xml"; Fmt (PStr next); Lit "/>"] in
      response <- requests_send (poll_request data) ;;
      if negb (status_code response =? 200) then
        log [Lit "Failed to poll TAXII server: "; Fmt (PInt (status_code response));
             Lit " "; Fmt (PStr (resp_text response))] ;;
        ret all_iocs
      else
        taxii_data <- lift (json response) ;;
        iocs <- lift (page_iocs taxii_data) ;;
        let all_iocs := (all_iocs ++ iocs)%list in
        log [Lit "Retrieved "; Fmt (PInt (Z.of_nat (List.length iocs)));
             Lit " IOCs from TAXII."] ;;
        rate_limit ;;
        next_token <- lift (py_get taxii_data "next_token") ;;
        if negb (truthy next_token) then ret all_iocs
        else poll_loop fuel' next_token all_iocs
  end.

Definition poll_taxii_server (fuel : nat) : M (list string) :=
  log [Lit "Polling TAXII server at "; Fmt (PStr (TAXII_SERVER_URL cfg));
       Lit " for collection "; Fmt (PStr (TAXII_COLLECTION cfg)); Lit "..."] ;;
  poll_loop fuel PNone [].

(** The [while True] loop of [check_ioc_exists_paginated]. *)
Fixpoint exists_loop (fuel : nat) (url : text) (headers : list (string * text))
    (next_token : pyval) : M bool :=
  match fuel with
  | O => out_of_fuel
  | S fuel' =>
      response <-
        (if truthy next_token then
           requests_send (mkRequest GET (url ++ [Lit "&next_token="; Fmt next_token])%list
                            headers None NoBody)
         else
           requests_send (mkRequest GET url headers None NoBody)) ;;
      if negb (status_code response =? 200) then
        log [Lit "Failed to check IOC: "; Fmt (PInt (status_code response));
             Lit " "; Fmt (PStr (resp_text response))] ;;
        ret false
      else
        j <- lift (json response) ;;
        resources <- lift (py_get j "resources") ;;
        if truthy resources then ret true
        else
          j <- lift (json response) ;;
          next_token <- lift (pagination_token j) ;;
          if negb (truthy next_token) then ret false
          else exists_loop fuel' url headers next_token
  end.

Definition check_ioc_exists_paginated (fuel : nat) (ioc_value : string)
    (access_token : pyval) : M bool :=
  let url := [Lit "https://api.crowdstrike.com/indicators/queries/iocs/v1?value=";
              Fmt (PStr ioc_value)] in
  let headers := [("Authorization", [Lit "Bearer "; Fmt access_token])] in
  exists_loop fuel url headers PNone.

Definition push_headers (access_token : pyval) : list (string * text) :=
  [("Authorization", [Lit "Bearer "; Fmt access_token]);
   ("Content-Type", [Lit "application/json"])].

(** One turn of the [for ioc in iocs] loop of [push_iocs_to_crowdstrike]. *)
Definition push_ioc (fuel : nat) (access_token : pyval) (ioc : string) : M unit :=
  let headers := push_headers access_token in
  log [Lit "Processing IOC: "; Fmt (PStr ioc)] ;;
  expiration_date <- calculate_expiration_date ;;
  found <- check_ioc_exists_paginated fuel ioc access_token ;;
  response <-
    (if found then
       log [Lit "IOC "; Fmt (PStr ioc); Lit " already exists. Updating..."] ;;
       let payload := payload_of ioc expiration_date in
       requests_send (mkRequest PATCH ioc_endpoint headers None (JsonBody payload))
     else
       log [Lit "IOC "; Fmt (PStr ioc); Lit " is new. Adding..."] ;;
       let payload := payload_of ioc expiration_date in
       requests_send (mkRequest POST ioc_endpoint headers None (JsonBody payload))) ;;
  (if negb ((status_code response =? 200) || (status_code response =? 201)) then
     log [Lit "Failed to push/update IOC "; Fmt (PStr ioc); Lit ": ";
          Fmt (PInt (status_code response)); Lit " "; Fmt (PStr (resp_text response))]
   else ret tt) ;;
  rate_limit.

Definition push_iocs_to_crowdstrike (fuel : nat) (iocs : list string)
    (access_token : pyval) : M unit :=
  log [Lit "Pushing or updating IOCs in CrowdStrike Falcon..."] ;;
  for_each iocs (push_ioc fuel access_token).

(** What [retry] hands to [main] as a Python object: the function's own
    [None] and a returned [None] are the same object. *)
Definition token_of (r : option pyval) : pyval :=
  match r with
  | Some v => v
  | None => PNone
  end.

(** [if iocs:] passes when [retry] handed over a list that is not empty. *)
Definition main (fuel : nat) : M unit :=
  log [Lit "TAXII to CrowdStrike IOC ingestion started."] ;;
  r <- retry get_crowdstrike_token ;;
  let access_token := token_of r in
  if negb (truthy access_token) then
    log [Lit "Failed to obtain access token. Exiting."]
  else
    iocs <- retry (poll_taxii_server fuel) ;;
    match iocs with
    | Some ((_ :: _) as iocs) =>
        retry (push_iocs_to_crowdstrike fuel iocs access_token) ;;
        ret tt
    | _ => ret tt
    end ;;
    log [Lit "IOC ingestion and management process complete."].

End WithConfig.

End Taxii.

(** ** Vocabulary of the statements *)

(** The string holds a single quote. *)
Fixpoint has_quote (s : string) : bool :=
  match s with
  | EmptyString => false
  | String c s' => Ascii.eqb c quote || has_quote s'
  end.

(** One of the three keywords of [transform_stix_to_ioc] occurs in the
    pattern. *)
Definition supported (pattern : string) : bool :=
  str_contains "domain-name" pattern
  || str_contains "ipv4-addr" pattern
  || str_contains "file:hashes" pattern.

(** The value stored under a key of a JSON payload. *)
Definition field (k : string) (b : body) : option pyval :=
  match b with
  | JsonBody (PDict d) => lookup k d
  | _ => None
  end.

(** ** Worlds after an effect *)

(** The world after [log(message)]. *)
Definition logged (message : text) (w : World) : World :=
  mkWorld (net w) (sent w) (clock w) (slept w)
    (logfile w ++ [message]) (stdout w ++ [message]).

(** The world after [time.sleep(seconds)]. *)
Definition paused (seconds : Z) (w : World) : World :=
  mkWorld (net w) (sent w) (clock w + seconds * 1000000)
    (slept w ++ [seconds]) (logfile w) (stdout w).

(** The world after request [q] went out and the network reacted within
    [latency], leaving [rest] for the requests to come. *)
Definition delivered (q : Request) (latency : Z) (rest : list NetEvent) (w : World)
  : World :=
  mkWorld rest (sent w ++ [q]) (clock w + latency) (slept w) (logfile w) (stdout w).

(** ** The retry schedule of the specification *)

(** [initialDelay * backoffMultiplier^(attempt-1)], in seconds. *)
Definition backoff_delay (attempt : Z) : Z := 5 * 2 ^ (attempt - 1).

Definition retry_notice (attempt : Z) : text :=
  [Lit "Command failed. Attempt "; Fmt (PInt attempt); Lit "/"; Fmt (PInt 3);
   Lit ". Retrying in "; Fmt (PInt (backoff_delay attempt)); Lit " seconds..."].

(** The world after a failed attempt was reported and waited for. *)
Definition after_failure (attempt : Z) (w : World) : World :=
  paused (backoff_delay attempt) (logged (retry_notice attempt) w).

(** The world after [retry] gave up. *)
Definition given_up (w : World) : World :=
  logged [Lit "The command has failed after maximum retry attempts."] w.

(** ** Pages of the feed *)

(** The text up to the first single quote, or all of it. *)
Fixpoint until_quote (s : string) : string :=
  match s with
  | EmptyString => EmptyString
  | String c s' => if Ascii.eqb c quote then EmptyString else String c (until_quote s')
  end.

(** What the poller takes from one object of a page: nothing from an
    object of another type; from an indicator, whose pattern holds a single
    quote, the text after the first quote up to the next one. *)
Inductive object_yields : pyval -> list string -> Prop :=
| yields_nothing (d : list (string * pyval)) (ty : pyval) :
    lookup "type" d = Some ty ->
    py_eq_str ty "indicator" = false ->
    object_yields (PDict d) []
| yields_value (d : list (string * pyval)) (pre rest : string) :
    lookup "type" d = Some (PStr "indicator") ->
    lookup "pattern" d = Some (PStr (pre ++ String quote rest)) ->
    has_quote pre = false ->
    object_yields (PDict d) [until_quote rest].

Inductive objects_yield : list pyval -> list string -> Prop :=
| yield_nil : objects_yield [] []
| yield_cons (obj : pyval) (objects : list pyval) (vs vs' : list string) :
    object_yields obj vs ->
    objects_yield objects vs' ->
    objects_yield (obj :: objects) (vs ++ vs')%list.

(** A successful page of the feed: status 200 and a JSON object whose
    [objects], a list (taken as empty when absent), yield [values], and
    whose [next_token] is [cursor] ([None] when absent). *)
Definition feed_page (r : Response) (values : list string) (cursor : pyval) : Prop :=
  status_code r = 200
  /\ exists (d : list (string * pyval)) (objects : list pyval),
       resp_json r = Some (PDict d)
       /\ match lookup "objects" d with Some o => o | None => PList [] end = PList objects
       /\ objects_yield objects values
       /\ match lookup "next_token" d with Some c => c | None => PNone end = cursor.







(** ** Pages of the existence query *)

(** A page of the query that reports no match and points to a further
    page: status 200, a JSON object with no [resources] to speak of, and
    [cursor] under [meta.pagination.next_token]. *)
Definition miss_page (r : Response) (cursor : pyval) : Prop :=
  status_code r = 200
  /\ exists d : list (string * pyval),
       resp_json r = Some (PDict d)
       /\ truthy (match lookup "resources" d with Some x => x | None => PNone end) = false
       /\ Taxii.pagination_token (PDict d) = Ret cursor.

Inductive misses : list NetEvent -> Prop :=
| misses_end : misses []
| misses_more (latency : Z) (r : Response) (cursor : pyval) (pages : list NetEvent) :
    miss_page r cursor ->
    truthy cursor = true ->
    misses pages ->
    misses (Answer latency r :: pages).

(** The request of the existence query while holding [next_token]. *)
Definition query_request (url : text) (headers : list (string * text))
    (next_token : pyval) : Request :=
  if truthy next_token then
    mkRequest GET (url ++ [Lit "&next_token="; Fmt next_token])%list headers None NoBody
  else
    mkRequest GET url headers None NoBody.


(** ** Requests *)

(** Every request a statement sends satisfies [P]. *)
Definition only_sends {A : Type} (P : Request -> Prop) (m : M A) : Prop :=
  forall w : World,
    exists qs : list Request,
      sent (snd (m w)) = (sent w ++ qs)%list /\ Forall P qs.

Definition token_request (cfg : Config) : Request :=
  mkRequest POST [Lit "https://api.crowdstrike.com/oauth2/token"] [] None
    (FormData [("client_id", CLIENT_ID cfg); ("client_secret", CLIENT_SECRET cfg)]).

(** A request of the polling stage or for the token: none of them goes to
    the indicator store. *)
Definition before_reconciliation (cfg : Config) (q : Request) : Prop :=
  q = token_request cfg \/ exists data : text, q = Taxii.poll_request cfg data.

(** The create ([found = false]) or update ([found = true]) request for an
    indicator. *)
Definition push_request (found : bool) (access_token : pyval) (ioc valid_until : string)
  : Request :=
  mkRequest (if found then PATCH else POST) Taxii.ioc_endpoint
    (Taxii.push_headers access_token) None
    (JsonBody (Taxii.payload_of ioc valid_until)).

(** What follows the push request in one turn of the loop. *)
Definition after_push (cfg : Config) (ioc : string) (response : Response) : M unit :=
  (if negb ((status_code response =? 200) || (status_code response =? 201)) then
     Taxii.log [Lit "Failed to push/update IOC "; Fmt (PStr ioc); Lit ": ";
                Fmt (PInt (status_code response)); Lit " ";
                Fmt (PStr (resp_text response))]
   else ret tt) ;;
  Taxii.rate_limit cfg.

(** ** Sample data *)

(** A world in which nothing has happened and nothing will answer. *)
Definition idle : World := mkWorld [] [] 0 [] [] [].

(** A STIX object of type [indicator] with the given pattern. *)
Definition indicator (pattern : string) : pyval :=
  PDict [("type", PStr "indicator"); ("pattern", PStr pattern)].

Definition cfg0 : Config :=
  mkConfig "id" "secret" "https://taxii.test" "user" "password" "feed" 2.

(** A 200 response whose body parses to [j]. *)
Definition ok (j : pyval) : NetEvent := Answer 1000 (mkResponse 200 "{...}" (Some j)).

(** A response with another status. *)
Definition refused (status : Z) (reason : string) : NetEvent :=
  Answer 1000 (mkResponse status reason None).

Definition token_reply : NetEvent := ok (PDict [("access_token", PStr "t0k3n")]).

(** A page of the feed with the given objects and, possibly, a cursor. *)
Definition page (objects : list pyval) (cursor : option string) : NetEvent :=
  ok (PDict (("objects", PList objects)
             :: match cursor with
                | Some c => [("next_token", PStr c)]
                | None => []
                end)).

Definition first_page : NetEvent :=
  page [indicator "[domain-name:value = 'example.test']"] (Some "c1").

Definition last_page : NetEvent :=
  page [PDict [("type", PStr "malware"); ("name", PStr "x")];
        indicator "[file:hashes.MD5 = '9e107d9d372bb6826bd81d3542a419d6']"] None.

(** 2024-10-10T00:00:00, in microseconds. *)
Definition october_10 : datetime := 1728518400 * 1000000.

(** A query page that reports the matches [resources] and no further page. *)
Definition query_reply (resources : list pyval) : NetEvent :=
  ok (PDict [("resources", PList resources)]).

(** A query page without a match that points to a further page. *)
Definition query_more (cursor : string) : Response :=
  mkResponse 200 "{...}"
    (Some (PDict [("resources", PList []);
                  ("meta", PDict [("pagination", PDict [("next_token", PStr cursor)])])])).


(** A run in which the feed holds no indicator. *)
Definition empty_feed : World :=
  mkWorld [token_reply; page [PDict [("type", PStr "malware")]] None; query_reply []]
    [] october_10 [] [] [].

(** A run in which the feed holds one address and the store does not know
    it. *)
Definition address_feed : World :=
  mkWorld [token_reply; page [indicator "[ipv4-addr:value = '198.51.100.7']"] None;
           query_reply []; Answer 1000 (mkResponse 201 "" None)]
    [] october_10 [] [] [].

(** [empty_feed] once the token is there, and once the poll is over. *)
Definition empty_feed_token : World :=
  Eval vm_compute in
    snd (Taxii.retry (Taxii.get_crowdstrike_token cfg0)
           (logged [Lit "TAXII to CrowdStrike IOC ingestion started."] empty_feed)).

Definition empty_feed_polled : World :=
  Eval vm_compute in
    snd (Taxii.retry (Taxii.poll_taxii_server cfg0 3) empty_feed_token).

(** ** Further vocabulary *)

(** A page of the existence query that reports a match: status 200 and a
    JSON object whose [resources] count as true. *)
Definition hit_page (r : Response) : Prop :=
  status_code r = 200
  /\ exists (d : list (string * pyval)) (resources : pyval),
       resp_json r = Some (PDict d)
       /\ lookup "resources" d = Some resources
       /\ truthy resources = true.

(** A statement that takes no pause. *)
Definition no_pause {A : Type} (m : M A) : Prop :=
  forall w : World, slept (snd (m w)) = slept w.

(** The URL and the headers of the existence query for a value. *)
Definition query_url (ioc_value : string) : text :=
  [Lit "https://api.crowdstrike.com/indicators/queries/iocs/v1?value=";
   Fmt (PStr ioc_value)].

Definition query_headers (access_token : pyval) : list (string * text) :=
  [("Authorization", [Lit "Bearer "; Fmt access_token])].

(** A statement that, started with at most [n] events left on the network,
    does not run out of fuel and leaves at most [n'] events. *)
Definition within {A : Type} (n n' : nat) (m : M A) : Prop :=
  forall w : World,
    (List.length (net w) <= n)%nat ->
    fst (m w) <> OutOfFuel /\ (List.length (net (snd (m w))) <= n')%nat.

(** A statement that lets no exception out. *)
Definition no_raise {A : Type} (m : M A) : Prop :=
  forall (w : World) (e : exn), fst (m w) <> Raise e.




(** The world after [print(message)]. *)
Definition printed (message : text) (w : World) : World :=
  mkWorld (net w) (sent w) (clock w) (slept w) (logfile w) (stdout w ++ [message]).

(** A record as the first script builds it: one of the three kinds, a
    value, the action [detect] and the source [TAXII Import]. *)
Definition normalized (v : pyval) : Prop :=
  exists kind value : string,
    v = Ingestor.ioc_dict kind value
    /\ (kind = "domain" \/ kind = "ipv4" \/ kind = "sha256").

(** The request by which the first script pushes a record. *)
Definition legacy_post (token ioc : pyval) : Request :=
  mkRequest POST [Lit "https://api.crowdstrike.com/indicators/entities/iocs/v1"]
    [("Authorization", [Lit "Bearer "; Fmt token]);
     ("Content-Type", [Lit "application/json"])]
    None (JsonBody ioc).

(** Network events that are all answers, of whatever status. *)
Definition answers (evs : list NetEvent) : Prop :=
  Forall (fun ev => exists (latency : Z) (r : Response), ev = Answer latency r) evs.

(** The token request of the first script, with the credentials written in
    the script. *)
Definition legacy_token_request : Request :=
  mkRequest POST [Lit "https://api.crowdstrike.com/oauth2/token"] [] None
    (FormData [("client_id", Ingestor.CLIENT_ID);
               ("client_secret", Ingestor.CLIENT_SECRET)]).

(** A request of the reconciliation of the list [iocs] with [access_token]:
    a query for one of its values, or the create or update of one. *)
Definition reconciles (iocs : list string) (access_token : pyval) (q : Request) : Prop :=
  exists ioc : string,
    In ioc iocs
    /\ ((exists next_token : pyval,
            q = query_request (query_url ioc) (query_headers access_token) next_token)
        \/ (exists (found : bool) (valid_until : string),
               q = push_request found access_token ioc valid_until)).

(** A run in which the feed holds one address and the network fails on
    every request of the reconciliation. *)
Definition push_fails : World :=
  mkWorld [token_reply; page [indicator "[ipv4-addr:value = '198.51.100.7']"] None;
           Fault 0 ConnectionError; Fault 0 ConnectionError; Fault 0 ConnectionError]
    [] october_10 [] [] [].

Definition push_fails_token : World :=
  Eval vm_compute in
    snd (Taxii.retry (Taxii.get_crowdstrike_token cfg0)
           (logged [Lit "TAXII to CrowdStrike IOC ingestion started."] push_fails)).

Definition push_fails_polled : World :=
  Eval vm_compute in
    snd (Taxii.retry (Taxii.poll_taxii_server cfg0 4) push_fails_token).

(** A feed of two blocks for the first script, and a run on it in which
    the store rejects the first record and accepts the second. *)
Definition legacy_blocks : list pyval :=
  [PList [indicator "[ipv4-addr:value = '198.51.100.7']";
          indicator "[url:value = 'http://example.test/']"];
   PList [PDict [("type", PStr "malware")];
          indicator "[domain-name:value = 'example.test']"]].

Definition legacy_run : World :=
  mkWorld [token_reply; refused 400 "bad request"; Answer 0 (mkResponse 201 "" None)]
    [] 0 [] [] [].

Definition legacy_run_token : World :=
  Eval vm_compute in
    snd (Ingestor.get_crowdstrike_token Ingestor.CLIENT_ID Ingestor.CLIENT_SECRET
           legacy_run).

Definition legacy_run_collected : World :=
  Eval vm_compute in
    snd (Ingestor.get_stix_objects "feed" legacy_blocks legacy_run_token).

(** ** Splitting at the single quote *)

Lemma split_nonempty (sep : ascii) (s : string) : split sep s <> [].
Proof.
  destruct s as [|c s]; simpl; [discriminate|].
  destruct (Ascii.eqb c sep); [discriminate|].
  destruct (split sep s); discriminate.
Qed.

Lemma split_without_quote (s : string) :
  has_quote s = false -> split quote s = [s].
Proof.
  induction s as [|c s IH]; simpl; intros H; [reflexivity|].
  apply orb_false_iff in H as [Hc Hs].
  rewrite Hc, (IH Hs). reflexivity.
Qed.

Lemma split_at_first_quote (pre rest : string) :
  has_quote pre = false ->
  split quote (pre ++ String quote rest) = pre :: split quote rest.
Proof.
  induction pre as [|c pre IH]; simpl; intros H.
  - reflexivity.
  - apply orb_false_iff in H as [Hc Hs].
    rewrite Hc, (IH Hs). reflexivity.
Qed.

Lemma quoted_value_closed (pre value post : string) :
  has_quote pre = false -> has_quote value = false ->
  quoted_value (PStr (pre ++ String quote (value ++ String quote post))) = Ret value.
Proof.
  intros Hpre Hval. unfold quoted_value; simpl.
  rewrite (split_at_first_quote _ _ Hpre), (split_at_first_quote _ _ Hval).
  reflexivity.
Qed.

Lemma quoted_value_unclosed (pre rest : string) :
  has_quote pre = false -> has_quote rest = false ->
  quoted_value (PStr (pre ++ String quote rest)) = Ret rest.
Proof.
  intros Hpre Hrest. unfold quoted_value; simpl.
  rewrite (split_at_first_quote _ _ Hpre), (split_without_quote _ Hrest).
  reflexivity.
Qed.

Lemma quoted_value_unquoted (pattern : string) :
  has_quote pattern = false -> quoted_value (PStr pattern) = Raise IndexError.
Proof.
  intros H. unfold quoted_value; simpl.
  rewrite (split_without_quote _ H). reflexivity.
Qed.

(** ** The transformer *)

(** On a pattern that is a string with a keyword in it, the transformer
    is the quote extraction, labelled by the first keyword that matches. *)
Lemma transform_supported (stix_indicator : pyval) (pattern : string) (w : World) :
  py_get_default stix_indicator "pattern" (PStr "") = Ret (PStr pattern) ->
  supported pattern = true ->
  exists kind : string,
    Ingestor.transform_stix_to_ioc stix_indicator w
    = (rbind (quoted_value (PStr pattern)) (fun v => Ret (Ingestor.ioc_dict kind v)), w)
    /\ (str_contains "domain-name" pattern = true -> kind = "domain")
    /\ (str_contains "domain-name" pattern = false ->
        str_contains "ipv4-addr" pattern = true -> kind = "ipv4")
    /\ (str_contains "domain-name" pattern = false ->
        str_contains "ipv4-addr" pattern = false -> kind = "sha256").
Proof.
  intros Hget Hsup. unfold supported in Hsup.
  unfold Ingestor.transform_stix_to_ioc, bind, lift. rewrite Hget. cbn [py_in].
  destruct (str_contains "domain-name" pattern) eqn:Hd.
  - exists "domain". split; [|repeat split; congruence].
    destruct (quoted_value (PStr pattern)); reflexivity.
  - destruct (str_contains "ipv4-addr" pattern) eqn:Hi.
    + exists "ipv4". split; [|repeat split; congruence].
      destruct (quoted_value (PStr pattern)); reflexivity.
    + simpl in Hsup. rewrite Hsup.
      exists "sha256". split; [|repeat split; congruence].
      destruct (quoted_value (PStr pattern)); reflexivity.
Qed.

Lemma str_contains_app_r (needle pre post : string) :
  str_contains needle post = true -> str_contains needle (pre ++ post) = true.
Proof.
  intros H. induction pre as [|c pre IH]; [exact H|].
  cbn [append str_contains]. rewrite IH. apply orb_true_r.
Qed.

(** C7 fails on the code.  The value is taken between the first and the
    second single quote of the whole pattern, wherever the keyword stands:
    when [domain-name] occurs only after the first quoted value, as in
    [[file:name = 'a.exe' AND domain-name:value = 'evil.test']], the record
    has type [domain] and, as its value, the quoted value of the comparison
    before it ([a.exe]), not the one that follows the keyword. *)
Theorem C7_value_of_another_comparison
    (stix_indicator : pyval) (pre value post : string) (w : World) :
  py_get_default stix_indicator "pattern" (PStr "")
  = Ret (PStr (pre ++ String quote (value ++ String quote post))) ->
  has_quote pre = false ->
  has_quote value = false ->
  str_contains "domain-name" post = true ->
  exists d : list (string * pyval),
    Ingestor.transform_stix_to_ioc stix_indicator w = (Ret (PDict d), w)
    /\ lookup "type" d = Some (PStr "domain")
    /\ lookup "value" d = Some (PStr value).
Proof.
  intros Hget Hpre Hval Hpost.
  assert (Hdomain : str_contains "domain-name"
                      (pre ++ String quote (value ++ String quote post)) = true).
  { apply str_contains_app_r.
    change (String quote (value ++ String quote post))
      with (String quote "" ++ (value ++ String quote post)).
    apply str_contains_app_r.
    change (String quote post) with (String quote "" ++ post).
    do 2 apply str_contains_app_r. exact Hpost. }
  assert (Hsup : supported (pre ++ String quote (value ++ String quote post)) = true).
  { unfold supported. rewrite Hdomain. reflexivity. }
  destruct (transform_supported _ _ w Hget Hsup) as (kind & Hrun & Hd & _).
  rewrite (Hd Hdomain) in Hrun.
  rewrite (quoted_value_closed pre value post Hpre Hval) in Hrun. cbn [rbind] in Hrun.
  eexists. split; [exact Hrun|]. split; reflexivity.
Qed.

Lemma C7_value_of_another_comparison_witness :
  exists d : list (string * pyval),
    Ingestor.transform_stix_to_ioc
      (indicator "[file:name = 'a.exe' AND domain-name:value = 'evil.test']") idle
    = (Ret (PDict d), idle)
    /\ lookup "type" d = Some (PStr "domain")
    /\ lookup "value" d = Some (PStr "a.exe").
Proof.
  apply (C7_value_of_another_comparison
           (indicator "[file:name = 'a.exe' AND domain-name:value = 'evil.test']")
           "[file:name = " "a.exe" " AND domain-name:value = 'evil.test']" idle);
    reflexivity.
Defined.

(** Where the keyword stands before the first quote, the value is the one
    that follows it. *)
Example transform_single_comparison :
  Ingestor.transform_stix_to_ioc (indicator "[ipv4-addr:value = '198.51.100.7']") idle
  = (Ret (PDict [("type", PStr "ipv4"); ("value", PStr "198.51.100.7");
                 ("action", PStr "detect"); ("source", PStr "TAXII Import")]), idle).
Proof. reflexivity. Qed.

(** With two keywords in one pattern the first of the fixed order wins. *)
Example transform_priority :
  Ingestor.transform_stix_to_ioc
    (indicator "[ipv4-addr:value = '198.51.100.7' OR domain-name:value = 'example.test']")
    idle
  = (Ret (Ingestor.ioc_dict "domain" "198.51.100.7"), idle).
Proof. reflexivity. Qed.

Example transform_unsupported :
  fst (Ingestor.transform_stix_to_ioc (indicator "[url:value = 'http://example.test/']") idle)
  = Ret PNone.
Proof. reflexivity. Qed.

(** C3, as the code has it.  For a pattern with one of the three keywords:
    with no single quote at all the transformer raises [IndexError]; with
    exactly one single quote it returns a record whose value is the text
    from that quote to the end of the pattern. *)
Theorem C3_missing_closing_quote
    (stix_indicator : pyval) (pattern : string) (w : World) :
  py_get_default stix_indicator "pattern" (PStr "") = Ret (PStr pattern) ->
  supported pattern = true ->
  (has_quote pattern = false ->
   Ingestor.transform_stix_to_ioc stix_indicator w = (Raise IndexError, w))
  /\ (forall pre rest : string,
        pattern = pre ++ String quote rest ->
        has_quote pre = false ->
        has_quote rest = false ->
        exists kind : string,
          Ingestor.transform_stix_to_ioc stix_indicator w
          = (Ret (Ingestor.ioc_dict kind rest), w)).
Proof.
  intros Hget Hsup.
  destruct (transform_supported _ _ w Hget Hsup) as (kind & Hrun & _).
  split.
  - intros Hq. rewrite Hrun, (quoted_value_unquoted _ Hq). reflexivity.
  - intros pre rest -> Hpre Hrest. exists kind.
    rewrite Hrun, (quoted_value_unclosed _ _ Hpre Hrest). reflexivity.
Qed.

Lemma C3_missing_closing_quote_witness :
  Ingestor.transform_stix_to_ioc (indicator "[domain-name:value = example.com]") idle
  = (Raise IndexError, idle)
  /\ exists kind : string,
       Ingestor.transform_stix_to_ioc (indicator "[domain-name:value = 'example.com]") idle
       = (Ret (Ingestor.ioc_dict kind "example.com]"), idle).
Proof.
  split.
  - apply (C3_missing_closing_quote
             (indicator "[domain-name:value = example.com]")
             "[domain-name:value = example.com]" idle); reflexivity.
  - apply (proj2 (C3_missing_closing_quote
                    (indicator "[domain-name:value = 'example.com]")
                    "[domain-name:value = 'example.com]" idle eq_refl eq_refl)
             "[domain-name:value = " "example.com]"); reflexivity.
Defined.

(** C3 as stated fails: an unclosed quote gives a record with the rest of
    the pattern as its value, and a pattern with no quote raises; neither
    is discarded. *)
Lemma C3_counterexample :
  Ingestor.transform_stix_to_ioc (indicator "[domain-name:value = 'example.com]") idle
  = (Ret (Ingestor.ioc_dict "domain" "example.com]"), idle)
  /\ Ingestor.transform_stix_to_ioc (indicator "[domain-name:value = example.com]") idle
     = (Raise IndexError, idle)
  /\ fst (Ingestor.transform_stix_to_ioc (indicator "[domain-name:value = 'example.com]") idle)
     <> Ret PNone.
Proof. repeat split; try reflexivity. discriminate. Qed.

(** ** The retry executor *)

(** A pause within what [time.sleep] takes. *)
Lemma time_sleep_run (seconds : Z) (w : World) :
  0 <= seconds <= sleep_max ->
  time_sleep seconds w
  = (Ret tt, mkWorld (net w) (sent w) (clock w + seconds * 1000000)
               (slept w ++ [seconds]) (logfile w) (stdout w)).
Proof.
  intros [Hlo Hhi]. unfold time_sleep.
  replace (seconds <? - sleep_max) with false
    by (symmetry; apply Z.ltb_ge; unfold sleep_max in *; lia).
  replace (sleep_max <? seconds) with false by (symmetry; apply Z.ltb_ge; exact Hhi).
  replace (seconds <? 0) with false by (symmetry; apply Z.ltb_ge; exact Hlo).
  reflexivity.
Qed.

(** One turn of the loop of [retry], for an attempt within the bound. *)
Lemma retry_loop_turn (A : Type) (fuel : nat) (func : M A) (n delay : Z) (w : World) :
  n <= Taxii.MAX_RETRIES ->
  0 <= delay <= sleep_max ->
  Taxii.retry_loop (S fuel) func n delay w =
  match func w with
  | (Ret a, w1) => (Ret (Some a), w1)
  | (Raise _, w1) =>
      Taxii.retry_loop fuel func (n + 1) (delay * 2)
        (paused delay
           (logged [Lit "Command failed. Attempt "; Fmt (PInt n); Lit "/";
                    Fmt (PInt Taxii.MAX_RETRIES); Lit ". Retrying in ";
                    Fmt (PInt delay); Lit " seconds..."] w1))
  | (OutOfFuel, w1) => (OutOfFuel, w1)
  end.
Proof.
  intros Hn Hd. cbn [Taxii.retry_loop].
  apply Z.leb_le in Hn. rewrite Hn.
  unfold try_return. destruct (func w) as [[a | e |] w1]; try reflexivity.
  unfold Taxii.log, logging_info, print, bind. cbv beta iota.
  cbn [net sent clock slept logfile stdout].
  rewrite (time_sleep_run _ _ Hd). reflexivity.
Qed.

(** Past the bound the loop is left: [retry] reports and returns [None]. *)
Lemma retry_loop_exhausted (A : Type) (fuel : nat) (func : M A) (n delay : Z) (w : World) :
  Taxii.MAX_RETRIES < n ->
  Taxii.retry_loop fuel func n delay w = (Ret None, given_up w).
Proof.
  intros Hn. apply Z.leb_gt in Hn.
  destruct fuel; cbn [Taxii.retry_loop]; rewrite Hn; reflexivity.
Qed.

(** C4, as the code has it.  [retry] is decided by at most three attempts.
    An attempt that returns, whatever the value, ends [retry] at once with
    that value: no wait, no further attempt.  An attempt that raises is
    reported and followed by a wait of [backoff_delay n] seconds (5, 10,
    20) and, for the first two, by the next attempt; after the third
    failure and its wait, [retry] gives up and returns [None] without
    raising. *)
Theorem C4_retry_on_raised_faults (A : Type) (func : M A) (w : World) :
  Taxii.retry func w =
  match func w with
  | (Ret a, w1) => (Ret (Some a), w1)
  | (OutOfFuel, w1) => (OutOfFuel, w1)
  | (Raise _, w1) =>
      match func (after_failure 1 w1) with
      | (Ret a, w2) => (Ret (Some a), w2)
      | (OutOfFuel, w2) => (OutOfFuel, w2)
      | (Raise _, w2) =>
          match func (after_failure 2 w2) with
          | (Ret a, w3) => (Ret (Some a), w3)
          | (OutOfFuel, w3) => (OutOfFuel, w3)
          | (Raise _, w3) => (Ret None, given_up (after_failure 3 w3))
          end
      end
  end.
Proof.
  unfold Taxii.retry. change (Z.to_nat Taxii.MAX_RETRIES) with 3%nat.
  rewrite retry_loop_turn by (unfold Taxii.MAX_RETRIES, sleep_max; lia).
  destruct (func w) as [[a | e |] w1]; [reflexivity | | reflexivity].
  rewrite retry_loop_turn by (unfold Taxii.MAX_RETRIES, sleep_max; lia).
  change (paused 5 _) with (after_failure 1 w1).
  destruct (func (after_failure 1 w1)) as [[a | e' |] w2]; [reflexivity | | reflexivity].
  rewrite retry_loop_turn by (unfold Taxii.MAX_RETRIES, sleep_max; lia).
  change (paused (5 * 2) _) with (after_failure 2 w2).
  destruct (func (after_failure 2 w2)) as [[a | e'' |] w3]; [reflexivity | | reflexivity].
  rewrite retry_loop_exhausted by (unfold Taxii.MAX_RETRIES, sleep_max; lia).
  reflexivity.
Qed.

(** A fault on each of the first two attempts, then a token: the waits are
    5 and 10 seconds and the token comes back. *)
Example retry_twice_then_token :
  let out := Taxii.retry (Taxii.get_crowdstrike_token cfg0)
               (mkWorld [Fault 0 ConnectionError; Fault 0 ConnectionError; token_reply]
                  [] 0 [] [] []) in
  fst out = Ret (Some (PStr "t0k3n")) /\ slept (snd out) = [5; 10].
Proof. split; reflexivity. Qed.

(** Three faults: the waits are 5, 10 and 20 seconds, nothing is raised. *)
Example retry_exhausted :
  let out := Taxii.retry (Taxii.get_crowdstrike_token cfg0)
               (mkWorld [Fault 0 ConnectionError; Fault 0 ConnectionError;
                         Fault 0 ConnectionError; token_reply]
                  [] 0 [] [] []) in
  fst out = Ret None /\ slept (snd out) = [5; 10; 20] /\ net (snd out) = [token_reply].
Proof. repeat split; reflexivity. Qed.

(** C4 as stated fails: the token request is refused with status 401, the
    function returns [None], and [retry] hands that [None] over at once: it
    neither waits nor asks again, although the next request would have been
    answered with a token. *)
Lemma C4_counterexample :
  let out := Taxii.retry (Taxii.get_crowdstrike_token cfg0)
               (mkWorld [refused 401 "access denied"; token_reply] [] 0 [] [] []) in
  fst out = Ret (Some PNone)
  /\ slept (snd out) = []
  /\ List.length (sent (snd out)) = 1%nat
  /\ net (snd out) = [token_reply].
Proof. repeat split; reflexivity. Qed.

(** ** Running statements *)

Lemma bind_ret (A B : Type) (a : A) (k : A -> M B) (w : World) :
  bind (ret a) k w = k a w.
Proof. reflexivity. Qed.

Lemma bind_lift (A B : Type) (a : A) (k : A -> M B) (w : World) :
  bind (lift (Ret a)) k w = k a w.
Proof. reflexivity. Qed.

Lemma bind_lift_raise (A B : Type) (e : exn) (k : A -> M B) (w : World) :
  bind (@lift A (Raise e)) k w = (Raise e, w).
Proof. reflexivity. Qed.

Lemma bind_print (B : Type) (message : text) (k : unit -> M B) (w : World) :
  bind (print message) k w
  = k tt (mkWorld (net w) (sent w) (clock w) (slept w) (logfile w)
            (stdout w ++ [message])).
Proof. reflexivity. Qed.

Lemma bind_log (B : Type) (message : text) (k : unit -> M B) (w : World) :
  bind (Taxii.log message) k w = k tt (logged message w).
Proof. reflexivity. Qed.

Lemma bind_utcnow (B : Type) (k : datetime -> M B) (w : World) :
  bind utcnow k w = k (clock w) w.
Proof. reflexivity. Qed.


Lemma requests_send_answered (q : Request) (w : World) (latency : Z) (r : Response)
    (rest : list NetEvent) :
  net w = Answer latency r :: rest ->
  requests_send q w = (Ret r, delivered q latency rest w).
Proof. intros H. unfold requests_send. rewrite H. reflexivity. Qed.

Lemma bind_send_answered (B : Type) (q : Request) (k : Response -> M B) (w : World)
    (latency : Z) (r : Response) (rest : list NetEvent) :
  net w = Answer latency r :: rest ->
  bind (requests_send q) k w = k r (delivered q latency rest w).
Proof.
  intros H. unfold bind. rewrite (requests_send_answered q w latency r rest H).
  reflexivity.
Qed.

(** Every request goes out, whatever the network does with it. *)
Lemma requests_send_sent (q : Request) (w : World) :
  sent (snd (requests_send q w)) = (sent w ++ [q])%list.
Proof.
  unfold requests_send. destruct (net w) as [|[l r | l e] rest]; reflexivity.
Qed.

Ltac run :=
  repeat (first [ rewrite bind_log | rewrite bind_ret | rewrite bind_lift
                | rewrite bind_print | rewrite bind_utcnow | rewrite bind_lift_raise ];
          cbv beta zeta).

(** ** The token provider *)

(** C5, as the code has it.  When the authentication endpoint answers:
    a token (a value other than [None]) is returned only from a response
    of status 200 whose JSON object holds it under [access_token]; any
    other status gives [None] after an entry with the status code and the
    response body was written (to the log in the current script, to the
    standard output in the first one).  A response of status 200 is never
    reported, whatever its body: when the body is a JSON object without
    [access_token] the current script returns [None] and its log says only
    that the token was acquired, while the first script raises [KeyError]
    and prints nothing; when the body is not JSON both raise
    [JSONDecodeError]; when it is JSON but no object the current script
    raises [AttributeError] and the first [TypeError]; in these cases the
    log holds the opening entry only. *)
Theorem C5_token_only_from_200
    (cfg : Config) (w : World) (latency : Z) (r : Response) (rest : list NetEvent) :
  net w = Answer latency r :: rest ->
  let out := Taxii.get_crowdstrike_token cfg w in
  let old := Ingestor.get_crowdstrike_token (CLIENT_ID cfg) (CLIENT_SECRET cfg) w in
  (forall token : pyval,
      fst out = Ret token \/ fst old = Ret token ->
      token <> PNone ->
      status_code r = 200
      /\ exists d, resp_json r = Some (PDict d) /\ lookup "access_token" d = Some token)
  /\ (status_code r <> 200 ->
      fst out = Ret PNone
      /\ logfile (snd out)
         = (logfile w ++
            [[Lit "Fetching CrowdStrike OAuth2 token..."];
             [Lit "Failed to get OAuth2 token: "; Fmt (PInt (status_code r));
              Lit " "; Fmt (PStr (resp_text r))]])%list
      /\ fst old = Ret PNone
      /\ stdout (snd old)
         = (stdout w ++
            [[Lit "Error fetching token: "; Fmt (PInt (status_code r));
              Lit " "; Fmt (PStr (resp_text r))]])%list)
  /\ (status_code r = 200 ->
      stdout (snd old) = stdout w
      /\ match resp_json r with
         | Some (PDict d) =>
             logfile (snd out)
             = (logfile w ++
                [[Lit "Fetching CrowdStrike OAuth2 token..."];
                 [Lit "CrowdStrike OAuth2 token acquired."]])%list
             /\ stdout (snd out)
                = (stdout w ++
                   [[Lit "Fetching CrowdStrike OAuth2 token..."];
                    [Lit "CrowdStrike OAuth2 token acquired."]])%list
             /\ match lookup "access_token" d with
                | Some token => fst out = Ret token /\ fst old = Ret token
                | None => fst out = Ret PNone /\ fst old = Raise (KeyError "access_token")
                end
         | Some _ =>
             logfile (snd out)
             = (logfile w ++ [[Lit "Fetching CrowdStrike OAuth2 token..."]])%list
             /\ stdout (snd out)
                = (stdout w ++ [[Lit "Fetching CrowdStrike OAuth2 token..."]])%list
             /\ fst out = Raise AttributeError
             /\ fst old = Raise TypeError
         | None =>
             logfile (snd out)
             = (logfile w ++ [[Lit "Fetching CrowdStrike OAuth2 token..."]])%list
             /\ stdout (snd out)
                = (stdout w ++ [[Lit "Fetching CrowdStrike OAuth2 token..."]])%list
             /\ fst out = Raise JSONDecodeError
             /\ fst old = Raise JSONDecodeError
         end).
Proof.
  intros Hnet out old. subst out old.
  unfold Taxii.get_crowdstrike_token, Ingestor.get_crowdstrike_token. run.
  rewrite !(bind_send_answered _ _ _ _ latency r rest) by exact Hnet.
  unfold json, py_get.
  destruct (status_code r =? 200) eqn:Hs.
  - apply Z.eqb_eq in Hs. split; [|split].
    + intros token Hret Hne. split; [exact Hs|].
      destruct (resp_json r) as [[ | b | z | s | l | d]|]; cbn in Hret;
        try (destruct Hret; discriminate).
      exists d. split; [reflexivity|].
      destruct (lookup "access_token" d) as [v|]; cbn in Hret;
        destruct Hret as [Hret | Hret]; congruence.
    + intros Hne. contradiction.
    + intros _.
      destruct (resp_json r) as [[ | b | z | s | l | d]|]; cbn;
        try (destruct (lookup "access_token" d) as [token|]; cbn);
        rewrite <- ?app_assoc; repeat split; reflexivity.
  - apply Z.eqb_neq in Hs. split; [|split].
    + intros token [Hret | Hret] Hne; cbn in Hret; congruence.
    + intros _. repeat split; cbn; try reflexivity.
      rewrite <- app_assoc. reflexivity.
    + intros Hs'. contradiction.
Qed.

Lemma C5_token_only_from_200_witness :
  fst (Taxii.get_crowdstrike_token cfg0
         (mkWorld [refused 403 "access denied"] [] 0 [] [] [])) = Ret PNone
  /\ logfile (snd (Taxii.get_crowdstrike_token cfg0
                     (mkWorld [refused 403 "access denied"] [] 0 [] [] [])))
     = [[Lit "Fetching CrowdStrike OAuth2 token..."];
        [Lit "Failed to get OAuth2 token: "; Fmt (PInt 403); Lit " ";
         Fmt (PStr "access denied")]]
  /\ fst (Ingestor.get_crowdstrike_token "id" "secret"
            (mkWorld [refused 403 "access denied"] [] 0 [] [] [])) = Ret PNone
  /\ stdout (snd (Ingestor.get_crowdstrike_token "id" "secret"
                    (mkWorld [refused 403 "access denied"] [] 0 [] [] [])))
     = [[Lit "Error fetching token: "; Fmt (PInt 403); Lit " ";
         Fmt (PStr "access denied")]].
Proof.
  apply (proj1 (proj2 (C5_token_only_from_200 cfg0
           (mkWorld [refused 403 "access denied"] [] 0 [] [] [])
           1000 (mkResponse 403 "access denied" None) [] eq_refl))).
  cbv [sleep_max]; simpl; lia.
Defined.

(** C5 as stated fails: a 200 response without [access_token] gives no
    token, but nothing reports its status code or its body: the log says
    that a token was acquired. *)
Lemma C5_counterexample :
  let out := Taxii.get_crowdstrike_token cfg0
               (mkWorld [ok (PDict [("token_type", PStr "bearer")])] [] 0 [] [] []) in
  fst out = Ret PNone
  /\ logfile (snd out)
     = [[Lit "Fetching CrowdStrike OAuth2 token..."];
        [Lit "CrowdStrike OAuth2 token acquired."]]
  /\ stdout (snd out) = logfile (snd out).
Proof. repeat split; reflexivity. Qed.

(** ** The feed poller *)

Lemma split_head (s : string) :
  exists tail : list string, split quote s = until_quote s :: tail.
Proof.
  induction s as [|c s [tail IH]]; simpl.
  - exists []. reflexivity.
  - destruct (Ascii.eqb c quote).
    + eexists. reflexivity.
    + rewrite IH. eexists. reflexivity.
Qed.

Lemma quoted_value_after_quote (pre rest : string) :
  has_quote pre = false ->
  quoted_value (PStr (pre ++ String quote rest)) = Ret (until_quote rest).
Proof.
  intros Hpre. unfold quoted_value; simpl.
  rewrite (split_at_first_quote _ _ Hpre).
  destruct (split_head rest) as [tail ->]. reflexivity.
Qed.

Lemma indicator_values_yield (objects : list pyval) (values : list string) :
  objects_yield objects values -> Taxii.indicator_values objects = Ret values.
Proof.
  induction 1 as [|obj objects vs vs' Hobj _ IH]; [reflexivity|].
  cbn [Taxii.indicator_values].
  destruct Hobj as [d ty Hty Hother | d pre rest Hty Hpat Hpre]; cbn [py_getitem rbind].
  - rewrite Hty. cbn [rbind]. rewrite Hother. exact IH.
  - rewrite Hty. cbn [rbind py_eq_str]. cbn [String.eqb Ascii.eqb Bool.eqb].
    rewrite Hpat. cbn [rbind].
    rewrite (quoted_value_after_quote _ _ Hpre). cbn [rbind].
    rewrite IH. reflexivity.
Qed.

Lemma feed_page_reads (r : Response) (values : list string) (cursor : pyval) :
  feed_page r values cursor ->
  (status_code r =? 200) = true
  /\ exists taxii_data : pyval,
       json r = Ret taxii_data
       /\ Taxii.page_iocs taxii_data = Ret values
       /\ py_get taxii_data "next_token" = Ret cursor.
Proof.
  intros (Hs & d & objects & Hj & Hobjs & Hyield & Hcur).
  split; [apply Z.eqb_eq; exact Hs|].
  exists (PDict d). unfold json, Taxii.page_iocs, py_get, py_get_default.
  rewrite Hj, Hobjs, Hcur. cbn [rbind py_iter].
  rewrite (indicator_values_yield _ _ Hyield). repeat split.
Qed.





Lemma poll_taxii_server_unfold (cfg : Config) (fuel : nat) (w : World) :
  Taxii.poll_taxii_server cfg fuel w
  = Taxii.poll_loop cfg fuel PNone []
      (logged [Lit "Polling TAXII server at "; Fmt (PStr (TAXII_SERVER_URL cfg));
               Lit " for collection "; Fmt (PStr (TAXII_COLLECTION cfg)); Lit "..."] w).
Proof. reflexivity. Qed.







(** ** What a statement sends *)

Lemma only_sends_nothing (A : Type) (P : Request -> Prop) (m : M A) :
  (forall w, sent (snd (m w)) = sent w) -> only_sends P m.
Proof.
  intros H w. exists []. rewrite app_nil_r. split; [apply H | constructor].
Qed.

Lemma only_sends_ret (A : Type) (P : Request -> Prop) (a : A) : only_sends P (ret a).
Proof. apply only_sends_nothing. reflexivity. Qed.

Lemma only_sends_lift (A : Type) (P : Request -> Prop) (r : result A) :
  only_sends P (lift r).
Proof. apply only_sends_nothing. reflexivity. Qed.

Lemma only_sends_out_of_fuel (A : Type) (P : Request -> Prop) :
  only_sends P (@out_of_fuel A).
Proof. apply only_sends_nothing. reflexivity. Qed.

Lemma only_sends_log (P : Request -> Prop) (message : text) :
  only_sends P (Taxii.log message).
Proof. apply only_sends_nothing. reflexivity. Qed.

Lemma only_sends_print (P : Request -> Prop) (message : text) :
  only_sends P (print message).
Proof. apply only_sends_nothing. reflexivity. Qed.

Lemma only_sends_utcnow (P : Request -> Prop) : only_sends P utcnow.
Proof. apply only_sends_nothing. reflexivity. Qed.

Lemma only_sends_sleep (P : Request -> Prop) (seconds : Z) :
  only_sends P (time_sleep seconds).
Proof.
  apply only_sends_nothing. intros w. unfold time_sleep.
  destruct ((seconds <? - sleep_max) || (sleep_max <? seconds)); [reflexivity|].
  destruct (seconds <? 0); reflexivity.
Qed.

Lemma only_sends_send (P : Request -> Prop) (q : Request) :
  P q -> only_sends P (requests_send q).
Proof.
  intros H w. exists [q]. split; [apply requests_send_sent | repeat constructor; exact H].
Qed.

Lemma only_sends_bind (A B : Type) (P : Request -> Prop) (m : M A) (k : A -> M B) :
  only_sends P m -> (forall a, only_sends P (k a)) -> only_sends P (bind m k).
Proof.
  intros Hm Hk w. unfold bind.
  destruct (Hm w) as (qs & Hqs & HP). revert Hqs.
  destruct (m w) as [[a | e |] w1]; cbn [snd]; intros Hqs;
    try (exists qs; split; assumption).
  destruct (Hk a w1) as (qs' & Hqs' & HP').
  exists (qs ++ qs')%list. rewrite Hqs', Hqs, app_assoc. split; [reflexivity|].
  apply Forall_app; split; assumption.
Qed.

Lemma only_sends_try_return (A B : Type) (P : Request -> Prop) (func : M A)
    (done : A -> M B) (handler : exn -> M B) :
  only_sends P func ->
  (forall a, only_sends P (done a)) ->
  (forall e, only_sends P (handler e)) ->
  only_sends P (try_return func done handler).
Proof.
  intros Hm Hd Hh w. unfold try_return.
  destruct (Hm w) as (qs & Hqs & HP). revert Hqs.
  destruct (func w) as [[a | e |] w1]; cbn [snd]; intros Hqs.
  - destruct (Hd a w1) as (qs' & Hqs' & HP').
    exists (qs ++ qs')%list. rewrite Hqs', Hqs, app_assoc. split; [reflexivity|].
    apply Forall_app; split; assumption.
  - destruct (Hh e w1) as (qs' & Hqs' & HP').
    exists (qs ++ qs')%list. rewrite Hqs', Hqs, app_assoc. split; [reflexivity|].
    apply Forall_app; split; assumption.
  - exists qs; split; assumption.
Qed.

Lemma only_sends_weaken (A : Type) (P Q : Request -> Prop) (m : M A) :
  (forall q, P q -> Q q) -> only_sends P m -> only_sends Q m.
Proof.
  intros HPQ Hm w. destruct (Hm w) as (qs & Hqs & HP).
  exists qs. split; [exact Hqs|]. eapply Forall_impl; eauto.
Qed.

Lemma only_sends_if (A : Type) (P : Request -> Prop) (b : bool) (m m' : M A) :
  only_sends P m -> only_sends P m' -> only_sends P (if b then m else m').
Proof. destruct b; auto. Qed.

Lemma only_sends_for_each (A : Type) (P : Request -> Prop) (xs : list A)
    (body : A -> M unit) :
  (forall x, only_sends P (body x)) -> only_sends P (for_each xs body).
Proof.
  intros H. induction xs as [|x xs IH]; cbn [for_each].
  - apply only_sends_ret.
  - apply only_sends_bind; auto.
Qed.

Create HintDb sends.
#[local] Hint Resolve only_sends_ret only_sends_lift only_sends_out_of_fuel
  only_sends_log only_sends_print only_sends_utcnow only_sends_sleep
  only_sends_send : sends.

Ltac sends :=
  repeat first [ solve [auto with sends]
               | apply only_sends_bind; [|intros ?]
               | apply only_sends_if ].

Lemma only_sends_rate_limit (P : Request -> Prop) (cfg : Config) :
  only_sends P (Taxii.rate_limit cfg).
Proof. unfold Taxii.rate_limit. sends. Qed.

Lemma only_sends_retry_loop (A : Type) (P : Request -> Prop) (func : M A) :
  only_sends P func ->
  forall (fuel : nat) (n delay : Z), only_sends P (Taxii.retry_loop fuel func n delay).
Proof.
  intros Hf. induction fuel as [|fuel IH]; intros n delay; cbn [Taxii.retry_loop].
  - sends.
  - apply only_sends_if; [|sends].
    apply only_sends_try_return; [exact Hf | intros; sends | intros; sends].
Qed.

Lemma only_sends_retry (A : Type) (P : Request -> Prop) (func : M A) :
  only_sends P func -> only_sends P (Taxii.retry func).
Proof. intros H. apply only_sends_retry_loop. exact H. Qed.

Lemma get_crowdstrike_token_sends (cfg : Config) :
  only_sends (fun q => q = token_request cfg) (Taxii.get_crowdstrike_token cfg).
Proof. unfold Taxii.get_crowdstrike_token. sends. Qed.

Lemma poll_taxii_server_sends (cfg : Config) (fuel : nat) :
  only_sends (fun q => exists data, q = Taxii.poll_request cfg data)
    (Taxii.poll_taxii_server cfg fuel).
Proof.
  unfold Taxii.poll_taxii_server. apply only_sends_bind; [sends | intros _].
  generalize PNone, (@nil string).
  induction fuel as [|fuel IH]; intros next_token all_iocs; cbn [Taxii.poll_loop].
  - sends.
  - sends; try apply only_sends_rate_limit; try apply IH.
    apply only_sends_send. eexists. reflexivity.
Qed.

Lemma exists_loop_sends (url : text) (headers : list (string * text))
    (fuel : nat) (next_token : pyval) :
  only_sends (fun q => req_method q = GET)
    (Taxii.exists_loop fuel url headers next_token).
Proof.
  revert next_token.
  induction fuel as [|fuel IH]; intros next_token; cbn [Taxii.exists_loop].
  - sends.
  - sends; try apply IH; apply only_sends_send; reflexivity.
Qed.

(** ** The reconciliation engine *)

Lemma bind_assoc (A B C : Type) (m : M A) (f : A -> M B) (g : B -> M C) (w : World) :
  bind (bind m f) g w = bind m (fun a => bind (f a) g) w.
Proof. unfold bind. destruct (m w) as [[a | e |] w1]; reflexivity. Qed.

Lemma bind_run (A B : Type) (m : M A) (k : A -> M B) (w w' : World) (a : A) :
  m w = (Ret a, w') -> bind m k w = k a w'.
Proof. intros H. unfold bind. rewrite H. reflexivity. Qed.

Lemma bind_calculate_expiration_date (B : Type) (k : string -> M B) (w : World) :
  datetime_min <= clock w + timedelta_days 90 <= datetime_max ->
  bind Taxii.calculate_expiration_date k w
  = k (strftime (clock w + timedelta_days 90)) w.
Proof.
  intros [Hlo Hhi]. unfold Taxii.calculate_expiration_date, bind, utcnow, lift, ret,
    datetime_add.
  apply Z.ltb_ge in Hlo. apply Z.ltb_ge in Hhi.
  cbv zeta. rewrite Hlo, Hhi. reflexivity.
Qed.

Lemma sends_nothing (A : Type) (m : M A) (w : World) :
  only_sends (fun _ => False) m -> sent (snd (m w)) = sent w.
Proof.
  intros H. destruct (H w) as (qs & Hqs & HF).
  destruct qs as [|q qs]; [rewrite app_nil_r in Hqs; exact Hqs|].
  inversion HF; contradiction.
Qed.

Lemma bind_send_sent (B : Type) (q : Request) (k : Response -> M B) (w : World) :
  (forall r, only_sends (fun _ => False) (k r)) ->
  sent (snd (bind (requests_send q) k w)) = (sent w ++ [q])%list.
Proof.
  intros Hk. unfold bind.
  pose proof (requests_send_sent q w) as Hq. revert Hq.
  destruct (requests_send q w) as [[r | e |] w1]; cbn [snd]; intros Hq; try exact Hq.
  rewrite (sends_nothing _ _ w1 (Hk r)). exact Hq.
Qed.

(** One turn of the reconciliation loop, once the existence query has
    answered [found]. *)
Lemma push_ioc_run (cfg : Config) (fuel : nat) (access_token : pyval) (ioc : string)
    (w w2 : World) (found : bool) :
  datetime_min <= clock w + timedelta_days 90 <= datetime_max ->
  Taxii.check_ioc_exists_paginated fuel ioc access_token
    (logged [Lit "Processing IOC: "; Fmt (PStr ioc)] w) = (Ret found, w2) ->
  Taxii.push_ioc cfg fuel access_token ioc w
  = bind (requests_send
            (push_request found access_token ioc (strftime (clock w + timedelta_days 90))))
      (after_push cfg ioc)
      (logged (if found
               then [Lit "IOC "; Fmt (PStr ioc); Lit " already exists. Updating..."]
               else [Lit "IOC "; Fmt (PStr ioc); Lit " is new. Adding..."]) w2).
Proof.
  intros Hrange Hcheck. unfold Taxii.push_ioc. run.
  rewrite bind_calculate_expiration_date by exact Hrange. cbv beta.
  rewrite (bind_run _ _ _ _ _ _ _ Hcheck).
  destruct found; rewrite bind_assoc; run; reflexivity.
Qed.

Lemma after_push_sends_nothing (cfg : Config) (ioc : string) (response : Response) :
  only_sends (fun _ => False) (after_push cfg ioc response).
Proof. unfold after_push. sends; apply only_sends_rate_limit. Qed.

(** C6.  In the turn of the reconciliation loop for one indicator, after
    the GET requests of the existence query exactly one more request goes
    out: the update (PATCH) when the query answered true, the create (POST)
    when it answered false; its [valid_until] is the clock reading taken at
    the start of the turn plus 90 days, in the format of the payload. *)
Theorem C6_update_or_create
    (cfg : Config) (fuel : nat) (access_token : pyval) (ioc : string)
    (w w2 : World) (found : bool) :
  datetime_min <= clock w + timedelta_days 90 <= datetime_max ->
  Taxii.check_ioc_exists_paginated fuel ioc access_token
    (logged [Lit "Processing IOC: "; Fmt (PStr ioc)] w) = (Ret found, w2) ->
  exists (queries : list Request) (push : Request),
    sent (snd (Taxii.push_ioc cfg fuel access_token ioc w))
    = (sent w ++ queries ++ [push])%list
    /\ Forall (fun q => req_method q = GET) queries
    /\ req_method push = (if found then PATCH else POST)
    /\ req_url push = Taxii.ioc_endpoint
    /\ field "value" (req_body push) = Some (PStr ioc)
    /\ field "valid_until" (req_body push)
       = Some (PStr (strftime (clock w + timedelta_days 90))).
Proof.
  intros Hrange Hcheck.
  destruct (exists_loop_sends
              [Lit "https://api.crowdstrike.com/indicators/queries/iocs/v1?value=";
               Fmt (PStr ioc)]
              [("Authorization", [Lit "Bearer "; Fmt access_token])] fuel PNone
              (logged [Lit "Processing IOC: "; Fmt (PStr ioc)] w))
    as (queries & Hqueries & Hget).
  change (Taxii.exists_loop fuel _ _ PNone)
    with (Taxii.check_ioc_exists_paginated fuel ioc access_token) in Hqueries.
  rewrite Hcheck in Hqueries. cbn [snd sent logged] in Hqueries.
  exists queries,
    (push_request found access_token ioc (strftime (clock w + timedelta_days 90))).
  split; [|split; [exact Hget | repeat split]].
  rewrite (push_ioc_run cfg fuel access_token ioc w w2 found Hrange Hcheck).
  rewrite bind_send_sent by (intros r; apply after_push_sends_nothing).
  cbn [sent logged]. rewrite Hqueries, app_assoc. reflexivity.
Qed.

Lemma C6_update_or_create_witness :
  exists (queries : list Request) (push : Request),
    sent (snd (Taxii.push_ioc cfg0 3 (PStr "t0k3n") "example.test"
                 (mkWorld [query_reply [PStr "4f1c"]; refused 500 "oops"] []
                    october_10 [] [] [])))
    = ([] ++ queries ++ [push])%list
    /\ Forall (fun q => req_method q = GET) queries
    /\ req_method push = PATCH
    /\ req_url push = Taxii.ioc_endpoint
    /\ field "value" (req_body push) = Some (PStr "example.test")
    /\ field "valid_until" (req_body push)
       = Some (PStr (strftime (october_10 + timedelta_days 90))).
Proof.
  apply (C6_update_or_create cfg0 3 (PStr "t0k3n") "example.test"
           (mkWorld [query_reply [PStr "4f1c"]; refused 500 "oops"] []
              october_10 [] [] [])
           (mkWorld [refused 500 "oops"]
              [mkRequest GET
                 [Lit "https://api.crowdstrike.com/indicators/queries/iocs/v1?value=";
                  Fmt (PStr "example.test")]
                 [("Authorization", [Lit "Bearer "; Fmt (PStr "t0k3n")])] None NoBody]
              (october_10 + 1000) []
              [[Lit "Processing IOC: "; Fmt (PStr "example.test")]]
              [[Lit "Processing IOC: "; Fmt (PStr "example.test")]])
           true).
  - vm_compute. split; discriminate.
  - reflexivity.
Defined.

(** Ninety days after 2024-10-10T00:00:00 is 2025-01-08T00:00:00. *)
Example valid_until_of_october_10 :
  strftime (october_10 + timedelta_days 90) = "2025-01-08T00:00:00Z".
Proof. reflexivity. Qed.

(** An indicator that is absent is created, one that is present is
    updated; here the store knows [example.test] only. *)
Example reconcile_two :
  map (fun q => (req_method q, field "value" (req_body q)))
    (sent (snd (Taxii.push_iocs_to_crowdstrike cfg0 3 ["example.test"; "198.51.100.7"]
                  (PStr "t0k3n")
                  (mkWorld [query_reply [PStr "4f1c"]; refused 500 "oops";
                            query_reply []; Answer 0 (mkResponse 201 "" None)]
                     [] october_10 [] [] []))))
  = [(GET, None); (PATCH, Some (PStr "example.test"));
     (GET, None); (POST, Some (PStr "198.51.100.7"))].
Proof. reflexivity. Qed.

(** ** The existence query *)

Lemma exists_loop_request (fuel : nat) (url : text) (headers : list (string * text))
    (next_token : pyval) (w : World) (latency : Z) (r : Response) (rest : list NetEvent) :
  net w = Answer latency r :: rest ->
  Taxii.exists_loop (S fuel) url headers next_token w
  = (if negb (status_code r =? 200) then
       Taxii.log [Lit "Failed to check IOC: "; Fmt (PInt (status_code r));
                  Lit " "; Fmt (PStr (resp_text r))] ;;
       ret false
     else
       j <- lift (json r) ;;
       resources <- lift (py_get j "resources") ;;
       if truthy resources then ret true
       else
         j <- lift (json r) ;;
         next_token <- lift (Taxii.pagination_token j) ;;
         if negb (truthy next_token) then ret false
         else Taxii.exists_loop fuel url headers next_token)
      (delivered (query_request url headers next_token) latency rest w).
Proof.
  intros Hnet. cbn [Taxii.exists_loop]. unfold query_request.
  destruct (truthy next_token);
    rewrite (bind_send_answered _ _ _ _ latency r rest Hnet); reflexivity.
Qed.

Lemma exists_loop_miss (fuel : nat) (url : text) (headers : list (string * text))
    (next_token : pyval) (w : World) (latency : Z) (r : Response) (rest : list NetEvent)
    (cursor : pyval) :
  net w = Answer latency r :: rest ->
  miss_page r cursor ->
  truthy cursor = true ->
  Taxii.exists_loop (S fuel) url headers next_token w
  = Taxii.exists_loop fuel url headers cursor
      (delivered (query_request url headers next_token) latency rest w).
Proof.
  intros Hnet (Hs & d & Hj & Hres & Hcur) Ht.
  rewrite (exists_loop_request _ _ _ _ _ latency r rest Hnet).
  apply Z.eqb_eq in Hs. rewrite Hs. cbn [negb]. unfold json. rewrite Hj. run.
  unfold py_get, py_get_default. run. rewrite Hres. run.
  rewrite Hcur. run. rewrite Ht. reflexivity.
Qed.


(** The query walks through the pages without a match, one request each. *)
Lemma exists_loop_misses (url : text) (headers : list (string * text))
    (pages : list NetEvent) :
  misses pages ->
  forall (fuel : nat) (next_token : pyval) (w : World) (tail : list NetEvent),
    net w = (pages ++ tail)%list ->
    exists (next_token' : pyval) (w' : World),
      Taxii.exists_loop (List.length pages + fuel) url headers next_token w
      = Taxii.exists_loop fuel url headers next_token' w'
      /\ net w' = tail
      /\ slept w' = slept w
      /\ logfile w' = logfile w
      /\ List.length (sent w') = (List.length (sent w) + List.length pages)%nat.
Proof.
  induction 1 as [|latency r cursor pages Hpage Ht _ IH];
    intros fuel next_token w tail Hnet.
  - exists next_token, w. rewrite Nat.add_0_r. repeat split; auto.
  - cbn [List.length Nat.add].
    rewrite (exists_loop_miss _ _ _ _ _ latency r (pages ++ tail)%list cursor Hnet Hpage Ht).
    destruct (IH fuel cursor
                (delivered (query_request url headers next_token) latency
                   (pages ++ tail)%list w) tail eq_refl)
      as (next_token' & w' & Hrun & Hnet' & Hslept & Hlog & Hsent).
    exists next_token', w'. rewrite Hrun. repeat split; auto.
    rewrite Hsent. cbn. rewrite length_app. cbn. lia.
Qed.





(** ** The run *)

(** C10.  When the token was obtained and the poll handed over an empty
    list, [main] goes straight to its closing log entry: the requests of
    the whole run are the token requests and the poll requests, none of
    them to the indicator store, and the network, the pauses and the
    clock are as the polling stage left them.  Called with an empty list,
    [push_iocs_to_crowdstrike] itself sends nothing and does not pause. *)
Theorem C10_empty_poll_skips_reconciliation
    (cfg : Config) (fuel : nat) (w w1 w2 : World) (r : option pyval) :
  Taxii.retry (Taxii.get_crowdstrike_token cfg)
    (logged [Lit "TAXII to CrowdStrike IOC ingestion started."] w) = (Ret r, w1) ->
  truthy (Taxii.token_of r) = true ->
  Taxii.retry (Taxii.poll_taxii_server cfg fuel) w1 = (Ret (Some []), w2) ->
  Taxii.main cfg fuel w
  = (Ret tt, logged [Lit "IOC ingestion and management process complete."] w2)
  /\ (exists qs : list Request,
         sent (snd (Taxii.main cfg fuel w)) = (sent w ++ qs)%list
         /\ Forall (before_reconciliation cfg) qs)
  /\ net (snd (Taxii.main cfg fuel w)) = net w2
  /\ slept (snd (Taxii.main cfg fuel w)) = slept w2
  /\ clock (snd (Taxii.main cfg fuel w)) = clock w2
  /\ (forall (access_token : pyval) (w0 : World),
         Taxii.push_iocs_to_crowdstrike cfg fuel [] access_token w0
         = (Ret tt, logged [Lit "Pushing or updating IOCs in CrowdStrike Falcon..."] w0)).
Proof.
  intros Htoken Htruthy Hpoll.
  assert (Hmain : Taxii.main cfg fuel w
                  = (Ret tt, logged [Lit "IOC ingestion and management process complete."] w2)).
  { unfold Taxii.main. run.
    rewrite (bind_run _ _ _ _ _ _ _ Htoken). cbv zeta. rewrite Htruthy. cbn [negb].
    rewrite (bind_run _ _ _ _ _ _ _ Hpoll). run. reflexivity. }
  rewrite Hmain. cbn [snd net slept clock sent logged].
  split; [reflexivity|]. split; [|repeat split].
  destruct (only_sends_retry _ _ _ (get_crowdstrike_token_sends cfg)
              (logged [Lit "TAXII to CrowdStrike IOC ingestion started."] w))
    as (qs1 & Hqs1 & HP1).
  destruct (only_sends_retry _ _ _ (poll_taxii_server_sends cfg fuel) w1)
    as (qs2 & Hqs2 & HP2).
  rewrite Htoken in Hqs1. rewrite Hpoll in Hqs2. cbn [snd sent logged] in Hqs1, Hqs2.
  exists (qs1 ++ qs2)%list. rewrite Hqs2, Hqs1, app_assoc. split; [reflexivity|].
  apply Forall_app. split.
  - eapply Forall_impl; [|exact HP1]. intros q Hq. left. exact Hq.
  - eapply Forall_impl; [|exact HP2]. intros q Hq. right. exact Hq.
Qed.

Lemma C10_empty_poll_skips_reconciliation_witness :
  Taxii.main cfg0 3 empty_feed
  = (Ret tt, logged [Lit "IOC ingestion and management process complete."] empty_feed_polled)
  /\ net empty_feed_polled = [query_reply []]
  /\ slept empty_feed_polled = [2]
  /\ List.length (sent empty_feed_polled) = 2%nat.
Proof.
  split; [|repeat split].
  apply (C10_empty_poll_skips_reconciliation cfg0 3 empty_feed
           empty_feed_token empty_feed_polled (Some (PStr "t0k3n"))).
  - vm_compute. reflexivity.
  - reflexivity.
  - vm_compute. reflexivity.
Defined.

(** ** The type of the payload *)

(** C1 fails on the code.  The payload of every create and update request
    of the current script has the constant [domain] as its type.  In the
    run on [address_feed] the indicator's pattern names an IPv4 address,
    the first script classifies it as [ipv4], and the current script
    creates it in the store with type [domain]. *)
Theorem C1_payload_type_is_constant :
  (forall (found : bool) (access_token : pyval) (ioc valid_until : string),
      field "type" (req_body (push_request found access_token ioc valid_until))
      = Some (PStr "domain"))
  /\ map (fun q => (req_method q, field "type" (req_body q), field "value" (req_body q)))
       (sent (snd (Taxii.main cfg0 3 address_feed)))
     = [(POST, None, None); (POST, None, None); (GET, None, None);
        (POST, Some (PStr "domain"), Some (PStr "198.51.100.7"))]
  /\ fst (Ingestor.transform_stix_to_ioc
            (indicator "[ipv4-addr:value = '198.51.100.7']") idle)
     = Ret (Ingestor.ioc_dict "ipv4" "198.51.100.7")
  /\ map (fun q => (req_method q, field "type" (req_body q), field "value" (req_body q)))
       (sent (snd (Ingestor.push_iocs_to_crowdstrike
                     [Ingestor.ioc_dict "ipv4" "198.51.100.7"] (PStr "t0k3n") idle)))
     = [(POST, Some (PStr "ipv4"), Some (PStr "198.51.100.7"))].
Proof. repeat split; reflexivity. Qed.

(** * Further properties of the scripts *)

(** ** The existence query: match, exhaustion, frame *)

(** X1.  The existence query answers true at the first page that reports
    a match, after pages without one, and asks for nothing more: what the
    network held for later requests is untouched, and nothing is logged. *)
Theorem X1_query_stops_at_first_match
    (fuel : nat) (access_token : pyval) (ioc : string) (w : World)
    (pages : list NetEvent) (latency : Z) (r : Response) (rest : list NetEvent) :
  misses pages ->
  hit_page r ->
  net w = (pages ++ Answer latency r :: rest)%list ->
  (List.length pages < fuel)%nat ->
  exists w' : World,
    Taxii.check_ioc_exists_paginated fuel ioc access_token w = (Ret true, w')
    /\ net w' = rest
    /\ List.length (sent w') = (List.length (sent w) + S (List.length pages))%nat
    /\ logfile w' = logfile w.
Proof.
  intros Hmiss (Hs & d & res & Hj & Hres & Ht) Hnet Hfuel.
  unfold Taxii.check_ioc_exists_paginated.
  replace fuel with (List.length pages + S (fuel - S (List.length pages)))%nat by lia.
  match goal with |- context [Taxii.exists_loop _ ?url ?headers _ _] =>
    destruct (exists_loop_misses url headers pages Hmiss
                (S (fuel - S (List.length pages))) PNone w (Answer latency r :: rest) Hnet)
      as (tok & w1 & Hrun & Hnet1 & _ & Hlog & Hsent)
  end.
  rewrite Hrun, (exists_loop_request _ _ _ _ _ latency r rest Hnet1).
  apply Z.eqb_eq in Hs. rewrite Hs. cbn [negb]. unfold json. rewrite Hj. run.
  unfold py_get, py_get_default. rewrite Hres. run. rewrite Ht.
  eexists. split; [reflexivity|]. cbn [net sent logfile delivered].
  repeat split; auto. rewrite length_app, Hsent. cbn. lia.
Qed.

Lemma X1_query_stops_at_first_match_witness :
  exists w' : World,
    Taxii.check_ioc_exists_paginated 3 "example.test" (PStr "t0k3n")
      (mkWorld [Answer 1000 (query_more "p2"); query_reply [PStr "4f1c"];
                refused 500 "unused"] [] 0 [] [] [])
    = (Ret true, w')
    /\ net w' = [refused 500 "unused"]
    /\ List.length (sent w') = 2%nat
    /\ logfile w' = [].
Proof.
  apply (X1_query_stops_at_first_match 3 (PStr "t0k3n") "example.test"
           (mkWorld [Answer 1000 (query_more "p2"); query_reply [PStr "4f1c"];
                     refused 500 "unused"] [] 0 [] [] [])
           [Answer 1000 (query_more "p2")] 1000
           (mkResponse 200 "{...}" (Some (PDict [("resources", PList [PStr "4f1c"])])))
           [refused 500 "unused"]).
  - apply (misses_more 1000 (query_more "p2") (PStr "p2") []);
      [|reflexivity|constructor].
    split; [reflexivity|]. eexists. repeat split.
  - split; [reflexivity|]. eexists _, _. repeat split.
  - reflexivity.
  - cbv [sleep_max]; simpl; lia.
Defined.

(** X2.  The existence query answers false when the pages without a match
    end with one that carries no cursor; it has then sent one request per
    page and logged nothing. *)
Theorem X2_query_exhausted_is_absent
    (fuel : nat) (access_token : pyval) (ioc : string) (w : World)
    (pages : list NetEvent) (latency : Z) (r : Response) (cursor : pyval)
    (rest : list NetEvent) :
  misses pages ->
  miss_page r cursor ->
  truthy cursor = false ->
  net w = (pages ++ Answer latency r :: rest)%list ->
  (List.length pages < fuel)%nat ->
  exists w' : World,
    Taxii.check_ioc_exists_paginated fuel ioc access_token w = (Ret false, w')
    /\ net w' = rest
    /\ List.length (sent w') = (List.length (sent w) + S (List.length pages))%nat
    /\ logfile w' = logfile w.
Proof.
  intros Hmiss (Hs & d & Hj & Hres & Hcur) Ht Hnet Hfuel.
  unfold Taxii.check_ioc_exists_paginated.
  replace fuel with (List.length pages + S (fuel - S (List.length pages)))%nat by lia.
  match goal with |- context [Taxii.exists_loop _ ?url ?headers _ _] =>
    destruct (exists_loop_misses url headers pages Hmiss
                (S (fuel - S (List.length pages))) PNone w (Answer latency r :: rest) Hnet)
      as (tok & w1 & Hrun & Hnet1 & _ & Hlog & Hsent)
  end.
  rewrite Hrun, (exists_loop_request _ _ _ _ _ latency r rest Hnet1).
  apply Z.eqb_eq in Hs. rewrite Hs. cbn [negb]. unfold json. rewrite Hj. run.
  unfold py_get, py_get_default. run. rewrite Hres. run. rewrite Hcur. run. rewrite Ht.
  eexists. split; [reflexivity|]. cbn [net sent logfile delivered].
  repeat split; auto. rewrite length_app, Hsent. cbn. lia.
Qed.

Lemma X2_query_exhausted_is_absent_witness :
  exists w' : World,
    Taxii.check_ioc_exists_paginated 3 "example.test" (PStr "t0k3n")
      (mkWorld [Answer 1000 (query_more "p2"); query_reply []; refused 500 "unused"]
         [] 0 [] [] [])
    = (Ret false, w')
    /\ net w' = [refused 500 "unused"]
    /\ List.length (sent w') = 2%nat
    /\ logfile w' = [].
Proof.
  apply (X2_query_exhausted_is_absent 3 (PStr "t0k3n") "example.test"
           (mkWorld [Answer 1000 (query_more "p2"); query_reply []; refused 500 "unused"]
              [] 0 [] [] [])
           [Answer 1000 (query_more "p2")] 1000
           (mkResponse 200 "{...}" (Some (PDict [("resources", PList [])])))
           PNone [refused 500 "unused"]).
  - apply (misses_more 1000 (query_more "p2") (PStr "p2") []);
      [|reflexivity|constructor].
    split; [reflexivity|]. eexists. repeat split.
  - split; [reflexivity|]. eexists. repeat split.
  - reflexivity.
  - reflexivity.
  - cbv [sleep_max]; simpl; lia.
Defined.

(** *** What the query leaves alone *)

Lemma no_pause_bind (A B : Type) (m : M A) (k : A -> M B) :
  no_pause m -> (forall a, no_pause (k a)) -> no_pause (bind m k).
Proof.
  intros Hm Hk w. unfold bind. specialize (Hm w). revert Hm.
  destruct (m w) as [[a | e |] w1]; cbn [snd]; intros Hm; try exact Hm.
  rewrite (Hk a w1). exact Hm.
Qed.

Lemma no_pause_ret (A : Type) (a : A) : no_pause (ret a).
Proof. intros w. reflexivity. Qed.

Lemma no_pause_lift (A : Type) (r : result A) : no_pause (lift r).
Proof. intros w. reflexivity. Qed.

Lemma no_pause_out_of_fuel (A : Type) : no_pause (@out_of_fuel A).
Proof. intros w. reflexivity. Qed.

Lemma no_pause_log (message : text) : no_pause (Taxii.log message).
Proof. intros w. reflexivity. Qed.

Lemma no_pause_send (q : Request) : no_pause (requests_send q).
Proof.
  intros w. unfold requests_send. destruct (net w) as [|[l r | l e] rest]; reflexivity.
Qed.

Lemma no_pause_if (A : Type) (b : bool) (m m' : M A) :
  no_pause m -> no_pause m' -> no_pause (if b then m else m').
Proof. destruct b; auto. Qed.

Create HintDb pauses.
#[local] Hint Resolve no_pause_ret no_pause_lift no_pause_out_of_fuel no_pause_log
  no_pause_send : pauses.

Ltac pauses :=
  repeat first [ solve [auto with pauses]
               | apply no_pause_bind; [|intros ?]
               | apply no_pause_if ].

Lemma check_only_queries (fuel : nat) (access_token : pyval) (ioc : string) :
  only_sends (fun q => exists next_token : pyval,
                  q = query_request (query_url ioc) (query_headers access_token) next_token)
    (Taxii.check_ioc_exists_paginated fuel ioc access_token).
Proof.
  unfold Taxii.check_ioc_exists_paginated.
  change [Lit "https://api.crowdstrike.com/indicators/queries/iocs/v1?value=";
          Fmt (PStr ioc)] with (query_url ioc).
  change [("Authorization", [Lit "Bearer "; Fmt access_token])]
    with (query_headers access_token).
  generalize PNone.
  induction fuel as [|fuel IH]; intros next_token; cbn [Taxii.exists_loop].
  - sends.
  - destruct (truthy next_token) eqn:Ht; sends; try apply IH;
      apply only_sends_send; exists next_token;
      unfold query_request; rewrite Ht; reflexivity.
Qed.

Lemma check_no_pause (fuel : nat) (access_token : pyval) (ioc : string) :
  no_pause (Taxii.check_ioc_exists_paginated fuel ioc access_token).
Proof.
  unfold Taxii.check_ioc_exists_paginated. generalize PNone.
  induction fuel as [|fuel IH]; intros next_token; cbn [Taxii.exists_loop].
  - pauses.
  - pauses; apply IH.
Qed.

(** X3.  Whatever the network answers, the existence query only sends GET
    requests to the query URL of the value it was given, each with the
    bearer token and, at most, a cursor appended; and it never pauses. *)
Theorem X3_query_only_queries
    (fuel : nat) (access_token : pyval) (ioc : string) :
  only_sends (fun q => req_method q = GET
                       /\ exists next_token : pyval,
                            q = query_request (query_url ioc)
                                  (query_headers access_token) next_token)
    (Taxii.check_ioc_exists_paginated fuel ioc access_token)
  /\ no_pause (Taxii.check_ioc_exists_paginated fuel ioc access_token).
Proof.
  split; [|apply check_no_pause].
  eapply only_sends_weaken; [|apply check_only_queries].
  intros q [next_token ->]. split; [|exists next_token; reflexivity].
  unfold query_request. destruct (truthy next_token); reflexivity.
Qed.

(** ** One turn of the reconciliation loop *)



(** ** The token stage of a run *)

Lemma get_crowdstrike_token_sends_one (cfg : Config) (w : World) :
  sent (snd (Taxii.get_crowdstrike_token cfg w)) = (sent w ++ [token_request cfg])%list.
Proof.
  unfold Taxii.get_crowdstrike_token. run.
  rewrite bind_send_sent; [reflexivity|].
  intros r. sends.
Qed.

Lemma get_crowdstrike_token_no_pause (cfg : Config) :
  no_pause (Taxii.get_crowdstrike_token cfg).
Proof. unfold Taxii.get_crowdstrike_token. pauses. Qed.

Lemma pure_has_fuel (A : Type) (r : result A) (w : World) :
  r <> OutOfFuel -> fst (lift r w) <> OutOfFuel.
Proof. intros H. exact H. Qed.

Lemma get_crowdstrike_token_has_fuel (cfg : Config) (w : World) :
  fst (Taxii.get_crowdstrike_token cfg w) <> OutOfFuel.
Proof.
  unfold Taxii.get_crowdstrike_token. run. unfold bind, requests_send.
  cbn [net logged].
  destruct (net w) as [|[l r | l e] rest]; cbn [fst]; try discriminate.
  destruct (status_code r =? 200); [|discriminate].
  unfold lift, json, py_get, py_get_default.
  destruct (resp_json r) as [[ | b | z | s | l0 | d]|]; discriminate.
Qed.

(** With a function that sends one request per call, takes no pause and
    has fuel, [retry] sends that request once per attempt, at most three
    times, and its pauses are the backoff waits. *)
Lemma retry_attempts (A : Type) (func : M A) (q : Request) (w : World) :
  (forall w0, sent (snd (func w0)) = (sent w0 ++ [q])%list) ->
  no_pause func ->
  (forall w0, fst (func w0) <> OutOfFuel) ->
  exists n : nat,
    (1 <= n <= 3)%nat
    /\ sent (snd (Taxii.retry func w)) = (sent w ++ repeat q n)%list
    /\ ((exists a : A,
            fst (Taxii.retry func w) = Ret (Some a)
            /\ slept (snd (Taxii.retry func w))
               = (slept w ++ firstn (n - 1) [5; 10; 20])%list)
        \/ (n = 3%nat
            /\ fst (Taxii.retry func w) = Ret None
            /\ slept (snd (Taxii.retry func w)) = (slept w ++ [5; 10; 20])%list)).
Proof.
  intros Hsent Hpause Hfuel.
  unfold Taxii.retry. change (Z.to_nat Taxii.MAX_RETRIES) with 3%nat.
  rewrite retry_loop_turn by (unfold Taxii.MAX_RETRIES, sleep_max; lia).
  pose proof (Hsent w) as S1. pose proof (Hpause w) as P1. pose proof (Hfuel w) as F1.
  destruct (func w) as [[a | e |] w1]; cbn [fst snd] in *; [| |contradiction].
  { exists 1%nat. split; [lia|]. split; [exact S1|]. left. exists a.
    split; [reflexivity|]. cbn. rewrite app_nil_r. exact P1. }
  rewrite retry_loop_turn by (unfold Taxii.MAX_RETRIES, sleep_max; lia).
  match goal with |- context [func ?x] =>
    pose proof (Hsent x) as S2; pose proof (Hpause x) as P2; pose proof (Hfuel x) as F2;
    destruct (func x) as [[a | e' |] w2]
  end; cbn [fst snd sent slept paused logged] in *; [| |contradiction].
  { exists 2%nat. split; [lia|]. split.
    - rewrite S2, S1, <- app_assoc. reflexivity.
    - left. exists a. split; [reflexivity|]. rewrite P2, P1. reflexivity. }
  rewrite retry_loop_turn by (unfold Taxii.MAX_RETRIES, sleep_max; lia).
  match goal with |- context [func ?x] =>
    pose proof (Hsent x) as S3; pose proof (Hpause x) as P3; pose proof (Hfuel x) as F3;
    destruct (func x) as [[a | e'' |] w3]
  end; cbn [fst snd sent slept paused logged] in *; [| |contradiction].
  { exists 3%nat. split; [lia|]. split.
    - rewrite S3, S2, S1, <- !app_assoc. reflexivity.
    - left. exists a. split; [reflexivity|]. rewrite P3, P2, P1, <- app_assoc.
      reflexivity. }
  rewrite retry_loop_exhausted by (unfold Taxii.MAX_RETRIES, sleep_max; lia).
  exists 3%nat. split; [lia|]. cbn [fst snd sent slept given_up paused logged]. split.
  - rewrite S3, S2, S1, <- !app_assoc. reflexivity.
  - right. split; [reflexivity|]. split; [reflexivity|].
    rewrite P3, P2, P1, <- !app_assoc. reflexivity.
Qed.

(** X5.  Fetching the token under [retry] sends the token request once per
    attempt, between one and three times, and nothing else.  Either a
    value comes back, after the waits of the failed attempts before it
    (none, 5, or 5 and 10 seconds), or all three attempts raised and
    [None] comes back after waits of 5, 10 and 20 seconds. *)
Theorem X5_token_attempts (cfg : Config) (w : World) :
  exists n : nat,
    (1 <= n <= 3)%nat
    /\ sent (snd (Taxii.retry (Taxii.get_crowdstrike_token cfg) w))
       = (sent w ++ repeat (token_request cfg) n)%list
    /\ ((exists token : pyval,
            fst (Taxii.retry (Taxii.get_crowdstrike_token cfg) w) = Ret (Some token)
            /\ slept (snd (Taxii.retry (Taxii.get_crowdstrike_token cfg) w))
               = (slept w ++ firstn (n - 1) [5; 10; 20])%list)
        \/ (n = 3%nat
            /\ fst (Taxii.retry (Taxii.get_crowdstrike_token cfg) w) = Ret None
            /\ slept (snd (Taxii.retry (Taxii.get_crowdstrike_token cfg) w))
               = (slept w ++ [5; 10; 20])%list)).
Proof.
  apply retry_attempts.
  - apply get_crowdstrike_token_sends_one.
  - apply get_crowdstrike_token_no_pause.
  - apply get_crowdstrike_token_has_fuel.
Qed.

(** X6.  When the token stage hands over nothing usable ([None], or a
    value that counts as false), [main] writes that it failed to obtain a
    token and returns: the requests of the whole run are token requests,
    the feed is never polled and nothing is pushed. *)
Theorem X6_no_token_no_poll
    (cfg : Config) (fuel : nat) (w w1 : World) (r : option pyval) :
  Taxii.retry (Taxii.get_crowdstrike_token cfg)
    (logged [Lit "TAXII to CrowdStrike IOC ingestion started."] w) = (Ret r, w1) ->
  truthy (Taxii.token_of r) = false ->
  Taxii.main cfg fuel w
  = (Ret tt, logged [Lit "Failed to obtain access token. Exiting."] w1)
  /\ exists n : nat,
       (1 <= n <= 3)%nat
       /\ sent (snd (Taxii.main cfg fuel w))
          = (sent w ++ repeat (token_request cfg) n)%list.
Proof.
  intros Htoken Hfalsy.
  assert (Hmain : Taxii.main cfg fuel w
                  = (Ret tt, logged [Lit "Failed to obtain access token. Exiting."] w1)).
  { unfold Taxii.main. run.
    rewrite (bind_run _ _ _ _ _ _ _ Htoken). cbv zeta. rewrite Hfalsy. reflexivity. }
  split; [exact Hmain|].
  destruct (retry_attempts _ (Taxii.get_crowdstrike_token cfg) (token_request cfg)
              (logged [Lit "TAXII to CrowdStrike IOC ingestion started."] w)
              (get_crowdstrike_token_sends_one cfg)
              (get_crowdstrike_token_no_pause cfg)
              (get_crowdstrike_token_has_fuel cfg))
    as (n & Hn & Hsent & _).
  exists n. split; [exact Hn|].
  rewrite Hmain. rewrite Htoken in Hsent. exact Hsent.
Qed.

Lemma X6_no_token_no_poll_witness :
  Taxii.main cfg0 3
    (mkWorld [refused 401 "access denied"; first_page; last_page] [] 0 [] [] [])
  = (Ret tt,
     logged [Lit "Failed to obtain access token. Exiting."]
       (snd (Taxii.retry (Taxii.get_crowdstrike_token cfg0)
               (logged [Lit "TAXII to CrowdStrike IOC ingestion started."]
                  (mkWorld [refused 401 "access denied"; first_page; last_page]
                     [] 0 [] [] [])))))
  /\ exists n : nat,
       (1 <= n <= 3)%nat
       /\ sent (snd (Taxii.main cfg0 3
                       (mkWorld [refused 401 "access denied"; first_page; last_page]
                          [] 0 [] [] [])))
          = ([] ++ repeat (token_request cfg0) n)%list.
Proof.
  apply (X6_no_token_no_poll cfg0 3
           (mkWorld [refused 401 "access denied"; first_page; last_page] [] 0 [] [] [])
           _ (Some PNone)).
  - vm_compute. reflexivity.
  - reflexivity.
Defined.

(** ** Fuel and exceptions *)

Lemma within_quiet (A : Type) (n : nat) (m : M A) :
  (forall w, fst (m w) <> OutOfFuel /\ net (snd (m w)) = net w) -> within n n m.
Proof. intros H w Hw. destruct (H w) as [Hf Hn]. rewrite Hn. split; assumption. Qed.

Lemma within_ret (A : Type) (n : nat) (a : A) : within n n (ret a).
Proof. apply within_quiet. intros w. split; [discriminate | reflexivity]. Qed.

Lemma within_log (n : nat) (message : text) : within n n (Taxii.log message).
Proof. apply within_quiet. intros w. split; [discriminate | reflexivity]. Qed.

Lemma within_utcnow (n : nat) : within n n utcnow.
Proof. apply within_quiet. intros w. split; [discriminate | reflexivity]. Qed.

Lemma within_sleep (n : nat) (seconds : Z) : within n n (time_sleep seconds).
Proof.
  apply within_quiet. intros w. unfold time_sleep.
  destruct ((seconds <? - sleep_max) || (sleep_max <? seconds));
    [split; [discriminate | reflexivity]|].
  destruct (seconds <? 0); split; try discriminate; reflexivity.
Qed.

Lemma within_lift (A : Type) (n : nat) (r : result A) :
  r <> OutOfFuel -> within n n (lift r).
Proof. intros H. apply within_quiet. intros w. split; [exact H | reflexivity]. Qed.

Lemma within_send (n : nat) (q : Request) : within n n (requests_send q).
Proof.
  intros w Hw. unfold requests_send.
  destruct (net w) as [|[l r | l e] rest]; cbn [fst snd net List.length] in *;
    split; try discriminate; lia.
Qed.

Lemma within_bind (A B : Type) (n n1 n2 : nat) (m : M A) (k : A -> M B) :
  within n n1 m -> (forall a, within n1 n2 (k a)) -> (n1 <= n2)%nat ->
  within n n2 (bind m k).
Proof.
  intros Hm Hk Hle w Hw. unfold bind. destruct (Hm w Hw) as [Hf Hn]. revert Hf Hn.
  destruct (m w) as [[a | e |] w1]; cbn [fst snd]; intros Hf Hn.
  - apply Hk. exact Hn.
  - split; [discriminate | lia].
  - contradiction.
Qed.

Lemma within_seq (A B : Type) (n : nat) (m : M A) (k : A -> M B) :
  within n n m -> (forall a, within n n (k a)) -> within n n (bind m k).
Proof. intros Hm Hk. apply (within_bind _ _ n n n); auto. Qed.

Lemma within_weaken (A : Type) (n n1 n2 : nat) (m : M A) :
  within n n1 m -> (n1 <= n2)%nat -> within n n2 m.
Proof. intros Hm Hle w Hw. destruct (Hm w Hw). split; [assumption | lia]. Qed.

Lemma within_if (A : Type) (n n' : nat) (b : bool) (m m' : M A) :
  within n n' m -> within n n' m' -> within n n' (if b then m else m').
Proof. destruct b; auto. Qed.

(** A request followed by statements that may loop: the request takes one
    event away, or raises when none is left. *)
Lemma within_send_bind (B : Type) (n : nat) (q : Request) (k : Response -> M B) :
  (forall (m : nat) (r : Response), n = S m -> within m n (k r)) ->
  within n n (bind (requests_send q) k).
Proof.
  intros Hk w Hw. unfold bind, requests_send.
  destruct (net w) as [|[l r | l e] rest] eqn:Hnet; cbn [fst snd net List.length] in *.
  - split; [discriminate | lia].
  - destruct n as [|m]; [lia|]. apply (Hk m r eq_refl). cbn [net]. lia.
  - split; [discriminate | lia].
Qed.

Lemma within_try_return (A B : Type) (n : nat) (func : M A) (done : A -> M B)
    (handler : exn -> M B) :
  within n n func ->
  (forall a, within n n (done a)) ->
  (forall e, within n n (handler e)) ->
  within n n (try_return func done handler).
Proof.
  intros Hm Hd Hh w Hw. unfold try_return. destruct (Hm w Hw) as [Hf Hn]. revert Hf Hn.
  destruct (func w) as [[a | e |] w1]; cbn [fst snd]; intros Hf Hn.
  - apply Hd. exact Hn.
  - apply Hh. exact Hn.
  - contradiction.
Qed.

Lemma within_for_each (A : Type) (n : nat) (xs : list A) (body : A -> M unit) :
  (forall x, within n n (body x)) -> within n n (for_each xs body).
Proof.
  intros H. induction xs as [|x xs IH]; cbn [for_each].
  - apply within_ret.
  - apply within_seq; auto.
Qed.

(** Expressions have no loop to run out of fuel in. *)
Lemma rbind_has_fuel (A B : Type) (r : result A) (k : A -> result B) :
  r <> OutOfFuel -> (forall a, k a <> OutOfFuel) -> rbind r k <> OutOfFuel.
Proof. intros Hr Hk. destruct r; cbn; [apply Hk | discriminate | contradiction]. Qed.

Lemma py_get_default_has_fuel (v : pyval) (k : string) (default : pyval) :
  py_get_default v k default <> OutOfFuel.
Proof. destruct v; discriminate. Qed.

Lemma py_getitem_has_fuel (v : pyval) (k : string) : py_getitem v k <> OutOfFuel.
Proof. destruct v; try discriminate. cbn. destruct (lookup k d); discriminate. Qed.

Lemma quoted_value_has_fuel (v : pyval) : quoted_value v <> OutOfFuel.
Proof.
  unfold quoted_value. destruct v; try discriminate. cbn. unfold index1.
  destruct (nth_error (split quote s) 1); discriminate.
Qed.

Lemma json_has_fuel (r : Response) : json r <> OutOfFuel.
Proof. unfold json. destruct (resp_json r); discriminate. Qed.

Lemma indicator_values_has_fuel (objects : list pyval) :
  Taxii.indicator_values objects <> OutOfFuel.
Proof.
  induction objects as [|obj objects IH]; cbn [Taxii.indicator_values]; [discriminate|].
  apply rbind_has_fuel; [apply py_getitem_has_fuel | intros ty].
  destruct (py_eq_str ty "indicator"); [|exact IH].
  apply rbind_has_fuel; [apply py_getitem_has_fuel | intros pattern].
  apply rbind_has_fuel; [apply quoted_value_has_fuel | intros value].
  apply rbind_has_fuel; [exact IH | discriminate].
Qed.

Lemma page_iocs_has_fuel (taxii_data : pyval) : Taxii.page_iocs taxii_data <> OutOfFuel.
Proof.
  unfold Taxii.page_iocs.
  apply rbind_has_fuel; [apply py_get_default_has_fuel | intros objects].
  apply rbind_has_fuel; [destruct objects; discriminate | intros objs].
  apply indicator_values_has_fuel.
Qed.

Lemma pagination_token_has_fuel (j : pyval) : Taxii.pagination_token j <> OutOfFuel.
Proof.
  unfold Taxii.pagination_token.
  apply rbind_has_fuel; [apply py_get_default_has_fuel | intros meta].
  apply rbind_has_fuel; [apply py_get_default_has_fuel | intros pagination].
  apply py_get_default_has_fuel.
Qed.

Lemma poll_suffix_has_fuel (next_token : pyval) :
  (if truthy next_token then py_add_str " next=" next_token else Ret "") <> OutOfFuel.
Proof. destruct (truthy next_token); [destruct next_token|]; discriminate. Qed.

Lemma datetime_add_has_fuel (t : datetime) (d : Z) : datetime_add t d <> OutOfFuel.
Proof.
  unfold datetime_add. cbv zeta.
  destruct ((t + d <? datetime_min) || (datetime_max <? t + d)); discriminate.
Qed.

Create HintDb fuel.
#[local] Hint Resolve within_ret within_log within_utcnow within_sleep within_send
  within_lift py_get_default_has_fuel py_getitem_has_fuel quoted_value_has_fuel
  json_has_fuel page_iocs_has_fuel pagination_token_has_fuel poll_suffix_has_fuel
  datetime_add_has_fuel : fuel.

Ltac fuel :=
  repeat first [ solve [auto with fuel]
               | solve [apply within_lift; unfold py_get; auto with fuel]
               | apply within_seq; [| intros ?]
               | apply within_if ].

Lemma within_rate_limit (cfg : Config) (n : nat) : within n n (Taxii.rate_limit cfg).
Proof. unfold Taxii.rate_limit. fuel. Qed.

Lemma exists_loop_within (fuel : nat) (url : text) (headers : list (string * text)) :
  forall (n : nat) (next_token : pyval),
    (n < fuel)%nat -> within n n (Taxii.exists_loop fuel url headers next_token).
Proof.
  induction fuel as [|fuel IH]; intros n next_token Hn; [lia|].
  cbn [Taxii.exists_loop].
  destruct (truthy next_token);
    (apply within_send_bind; intros m r ->;
     apply within_weaken with (n1 := m); [|lia];
     apply within_if; [fuel|]; fuel; apply IH; lia).
Qed.

Lemma push_ioc_within (cfg : Config) (fuel n : nat) (access_token : pyval) (ioc : string) :
  (n < fuel)%nat -> within n n (Taxii.push_ioc cfg fuel access_token ioc).
Proof.
  intros Hn. unfold Taxii.push_ioc, Taxii.calculate_expiration_date,
    Taxii.check_ioc_exists_paginated. cbv zeta.
  fuel; try apply within_rate_limit; try (apply exists_loop_within; exact Hn).
Qed.

Lemma retry_loop_within (A : Type) (n : nat) (func : M A) :
  within n n func ->
  forall (fuel : nat) (i delay : Z),
    Z.of_nat fuel + i = 4 -> within n n (Taxii.retry_loop fuel func i delay).
Proof.
  intros Hf. induction fuel as [|fuel IH]; intros i delay Hi; cbn [Taxii.retry_loop].
  - replace (i <=? Taxii.MAX_RETRIES) with false
      by (symmetry; apply Z.leb_gt; unfold Taxii.MAX_RETRIES; lia).
    fuel.
  - apply within_if; [|fuel].
    apply within_try_return; [exact Hf | intros; fuel | intros e].
    fuel; apply IH; lia.
Qed.

Lemma retry_within (A : Type) (n : nat) (func : M A) :
  within n n func -> within n n (Taxii.retry func).
Proof. intros H. apply retry_loop_within; [exact H | reflexivity]. Qed.

Lemma no_raise_bind (A B : Type) (m : M A) (k : A -> M B) :
  no_raise m -> (forall a, no_raise (k a)) -> no_raise (bind m k).
Proof.
  intros Hm Hk w e. unfold bind. specialize (Hm w). revert Hm.
  destruct (m w) as [[a | e' |] w1]; cbn [fst]; intros Hm.
  - apply Hk.
  - exfalso. exact (Hm e' eq_refl).
  - discriminate.
Qed.

Lemma no_raise_ret (A : Type) (a : A) : no_raise (ret a).
Proof. intros w e. discriminate. Qed.

Lemma no_raise_log (message : text) : no_raise (Taxii.log message).
Proof. intros w e. discriminate. Qed.

(** Whatever the function does, the loop of [retry] lets no exception out
    as long as its waits, doubled at every turn, stay within what
    [time.sleep] takes. *)
Lemma retry_loop_no_raise (A : Type) (func : M A) :
  forall (fuel : nat) (i delay : Z),
    0 <= delay ->
    delay * 2 ^ Z.of_nat fuel <= sleep_max ->
    no_raise (Taxii.retry_loop fuel func i delay).
Proof.
  induction fuel as [|fuel IH]; intros i delay Hd Hmax w e.
  - cbn [Taxii.retry_loop]. destruct (i <=? Taxii.MAX_RETRIES); discriminate.
  - assert (Hpow : 2 ^ Z.of_nat (S fuel) = 2 * 2 ^ Z.of_nat fuel).
    { rewrite Nat2Z.inj_succ, Z.pow_succ_r by lia. reflexivity. }
    assert (Hpos : 0 < 2 ^ Z.of_nat fuel) by (apply Z.pow_pos_nonneg; lia).
    destruct (Z.leb_spec i Taxii.MAX_RETRIES) as [Hi | Hi].
    + rewrite retry_loop_turn by (try assumption; nia).
      destruct (func w) as [[a | e' |] w1]; try discriminate.
      apply IH; nia.
    + rewrite retry_loop_exhausted by assumption. discriminate.
Qed.

Lemma retry_no_raise (A : Type) (func : M A) : no_raise (Taxii.retry func).
Proof. apply retry_loop_no_raise; vm_compute; discriminate. Qed.

(** X7.  A run lets no exception out: whatever the network does with the
    requests (answers of any status, bodies of any shape, faults) and
    whatever the settings are, the outcome of [main] is never an exception.
    Every stage runs under [retry], which intercepts what the stage raises
    and whose own waits of 5, 10 and 20 seconds cannot fail; outside the
    stages [main] only tests values and writes to the log. *)
Theorem X7_main_never_raises (cfg : Config) (fuel : nat) (w : World) (e : exn) :
  fst (Taxii.main cfg fuel w) <> Raise e.
Proof.
  revert w e. change (no_raise (Taxii.main cfg fuel)). unfold Taxii.main.
  apply no_raise_bind; [apply no_raise_log | intros _].
  apply no_raise_bind; [apply retry_no_raise | intros r]. cbv zeta.
  destruct (negb (truthy (Taxii.token_of r))); [apply no_raise_log|].
  apply no_raise_bind; [apply retry_no_raise | intros iocs].
  apply no_raise_bind; [|intros _; apply no_raise_log].
  destruct iocs as [[|ioc iocs]|]; try apply no_raise_ret.
  apply no_raise_bind; [apply retry_no_raise | intros _; apply no_raise_ret].
Qed.

(** With a rate-limit delay that [time.sleep] refuses every poll raises,
    and the run still ends normally, without a reconciliation. *)
Example main_with_negative_delay :
  let out := Taxii.main
               (mkConfig "id" "secret" "https://taxii.test" "user" "password" "feed" (-1))
               3 (mkWorld [token_reply; last_page; last_page; last_page; query_reply []]
                    [] 0 [] [] []) in
  fst out = Ret tt /\ net (snd out) = [query_reply []] /\ slept (snd out) = [5; 10; 20].
Proof. repeat split; vm_compute; reflexivity. Qed.

(** ** The poller: cursors and malformed pages *)








Lemma indicator_values_app (pre : list pyval) (values : list string) :
  objects_yield pre values ->
  forall rest : list pyval,
    Taxii.indicator_values (pre ++ rest)
    = rbind (Taxii.indicator_values rest) (fun values' => Ret (values ++ values')%list).
Proof.
  induction 1 as [|obj objects vs vs' Hobj _ IH]; intros rest.
  - cbn [app]. destruct (Taxii.indicator_values rest); reflexivity.
  - cbn [app Taxii.indicator_values].
    destruct Hobj as [d ty Hty Hother | d pre rest' Hty Hpat Hpre]; cbn [py_getitem rbind].
    + rewrite Hty. cbn [rbind]. rewrite Hother. apply IH.
    + rewrite Hty. cbn [rbind py_eq_str]. cbn [String.eqb Ascii.eqb Bool.eqb].
      rewrite Hpat. cbn [rbind].
      rewrite (quoted_value_after_quote _ _ Hpre). cbn [rbind].
      rewrite IH. destruct (Taxii.indicator_values rest); reflexivity.
Qed.

(** X10.  Taking the values of a page raises [KeyError] at the first
    object that is a dict without a [type], whatever its kind, and at the
    first indicator without a [pattern]; the objects before it do not
    matter, nor do those after it. *)
Theorem X10_missing_key_raises
    (pre : list pyval) (values : list string) (d : list (string * pyval))
    (post : list pyval) :
  objects_yield pre values ->
  (lookup "type" d = None ->
   Taxii.page_iocs (PDict [("objects", PList (pre ++ PDict d :: post))])
   = Raise (KeyError "type"))
  /\ (lookup "type" d = Some (PStr "indicator") ->
      lookup "pattern" d = None ->
      Taxii.page_iocs (PDict [("objects", PList (pre ++ PDict d :: post))])
      = Raise (KeyError "pattern")).
Proof.
  intros Hpre. unfold Taxii.page_iocs. cbn [py_get_default lookup String.eqb Ascii.eqb
    Bool.eqb rbind py_iter].
  rewrite (indicator_values_app pre values Hpre). cbn [Taxii.indicator_values py_getitem].
  split.
  - intros Hty. rewrite Hty. reflexivity.
  - intros Hty Hpat. rewrite Hty. cbn [rbind py_eq_str]. cbn [String.eqb Ascii.eqb Bool.eqb].
    rewrite Hpat. reflexivity.
Qed.

Lemma X10_missing_key_raises_witness :
  Taxii.page_iocs
    (PDict [("objects",
             PList ([indicator "[domain-name:value = 'example.test']"]
                    ++ PDict [("type", PStr "indicator"); ("name", PStr "no pattern")]
                    :: [indicator "[ipv4-addr:value = '198.51.100.7']"]))])
  = Raise (KeyError "pattern").
Proof.
  refine (proj2 (X10_missing_key_raises
                   [indicator "[domain-name:value = 'example.test']"] ["example.test"]
                   [("type", PStr "indicator"); ("name", PStr "no pattern")]
                   [indicator "[ipv4-addr:value = '198.51.100.7']"] _) _ _).
  - apply (yield_cons _ [] ["example.test"] []); [|constructor].
    apply (yields_value _ "[domain-name:value = " "example.test']"); reflexivity.
  - reflexivity.
  - reflexivity.
Defined.

(** X11.  With a rate-limit delay that [time.sleep] does not take, the
    first successful page of a poll ends it, whether or not the page
    carries a cursor: the pause after the page raises [ValueError] for a
    negative delay down to -9223372036 seconds and [OverflowError] for a
    delay beyond 9223372036 seconds on either side; the values of the page
    are lost and no pause is taken. *)
Theorem X11_unusable_delay_breaks_poll
    (cfg : Config) (w : World) (latency : Z) (r : Response) (values : list string)
    (cursor : pyval) (rest : list NetEvent) (fuel : nat) :
  RATE_LIMIT_DELAY cfg < 0 \/ sleep_max < RATE_LIMIT_DELAY cfg ->
  feed_page r values cursor ->
  net w = Answer latency r :: rest ->
  exists w' : World,
    Taxii.poll_taxii_server cfg (S fuel) w
    = (Raise (if (RATE_LIMIT_DELAY cfg <? - sleep_max)
                 || (sleep_max <? RATE_LIMIT_DELAY cfg)
              then OverflowError else ValueError), w')
    /\ net w' = rest
    /\ slept w' = slept w.
Proof.
  intros Hdelay Hpage Hnet.
  destruct (feed_page_reads _ _ _ Hpage) as (Hs & taxii_data & Hj & Hiocs & Hcur).
  rewrite poll_taxii_server_unfold. cbn [Taxii.poll_loop]. cbn [truthy]. run.
  rewrite (bind_send_answered _ _ _ _ latency r rest) by exact Hnet.
  rewrite Hs. cbn [negb]. rewrite Hj. run. rewrite Hiocs. run.
  unfold Taxii.rate_limit at 1. rewrite bind_assoc. run.
  unfold bind at 1, time_sleep at 1.
  destruct ((RATE_LIMIT_DELAY cfg <? - sleep_max) || (sleep_max <? RATE_LIMIT_DELAY cfg))
    eqn:Hover.
  - eexists. split; [reflexivity|]. split; reflexivity.
  - apply orb_false_iff in Hover as [_ Hhi]. apply Z.ltb_ge in Hhi.
    replace (RATE_LIMIT_DELAY cfg <? 0) with true by (symmetry; apply Z.ltb_lt; lia).
    eexists. split; [reflexivity|]. split; reflexivity.
Qed.

Lemma X11_unusable_delay_breaks_poll_witness :
  exists w' : World,
    Taxii.poll_taxii_server
      (mkConfig "id" "secret" "https://taxii.test" "user" "password" "feed"
         9223372037) 3
      (mkWorld [last_page; token_reply] [] 0 [] [] [])
    = (Raise OverflowError, w')
    /\ net w' = [token_reply]
    /\ slept w' = [].
Proof.
  apply (X11_unusable_delay_breaks_poll
           (mkConfig "id" "secret" "https://taxii.test" "user" "password" "feed"
              9223372037)
           (mkWorld [last_page; token_reply] [] 0 [] [] []) 1000
           (mkResponse 200 "{...}"
              (Some (PDict [("objects",
                             PList [PDict [("type", PStr "malware"); ("name", PStr "x")];
                                    indicator "[file:hashes.MD5 = '9e107d9d372bb6826bd81d3542a419d6']"])])))
           ["9e107d9d372bb6826bd81d3542a419d6"] PNone [token_reply] 2%nat).
  - right. cbv [sleep_max]; simpl; lia.
  - split; [reflexivity|]. eexists _, _. split; [reflexivity|]. split; [reflexivity|].
    split; [|reflexivity].
    apply (yield_cons _ _ [] ["9e107d9d372bb6826bd81d3542a419d6"]).
    + apply (yields_nothing _ (PStr "malware")); reflexivity.
    + apply (yield_cons _ [] ["9e107d9d372bb6826bd81d3542a419d6"] []); [|constructor].
      apply (yields_value _ "[file:hashes.MD5 = " "9e107d9d372bb6826bd81d3542a419d6']");
        reflexivity.
  - reflexivity.
Defined.

(** The same page with a delay of -1 second: [ValueError]. *)
Example negative_delay_breaks_poll :
  fst (Taxii.poll_taxii_server
         (mkConfig "id" "secret" "https://taxii.test" "user" "password" "feed" (-1)) 3
         (mkWorld [last_page; token_reply] [] 0 [] [] []))
  = Raise ValueError.
Proof. reflexivity. Qed.

(** ** The first script *)

(** X12.  A pattern with none of the three keywords is discarded: the
    transformer prints a warning with the pattern and returns [None],
    raising nothing, also when the pattern holds no quote at all; an
    indicator without a [pattern] counts as one with the empty pattern. *)
Theorem X12_unsupported_pattern_discarded
    (stix_indicator : pyval) (pattern : string) (w : World) :
  py_get_default stix_indicator "pattern" (PStr "") = Ret (PStr pattern) ->
  supported pattern = false ->
  Ingestor.transform_stix_to_ioc stix_indicator w
  = (Ret PNone, printed [Lit "Unsupported STIX pattern: "; Fmt (PStr pattern)] w).
Proof.
  intros Hget Hsup. unfold supported in Hsup.
  apply orb_false_iff in Hsup as [Hsup Hh]. apply orb_false_iff in Hsup as [Hd Hi].
  unfold Ingestor.transform_stix_to_ioc. rewrite Hget. run.
  cbn [py_in]. rewrite Hd. run. rewrite Hi. run. rewrite Hh. run. reflexivity.
Qed.

Lemma X12_unsupported_pattern_discarded_witness :
  Ingestor.transform_stix_to_ioc (PDict [("type", PStr "indicator")]) idle
  = (Ret PNone, printed [Lit "Unsupported STIX pattern: "; Fmt (PStr "")] idle).
Proof.
  apply (X12_unsupported_pattern_discarded (PDict [("type", PStr "indicator")]) "" idle);
    reflexivity.
Defined.

Lemma bind_ret_inv (A B : Type) (m : M A) (k : A -> M B) (w w' : World) (b : B) :
  bind m k w = (Ret b, w') ->
  exists (a : A) (w1 : World), m w = (Ret a, w1) /\ k a w1 = (Ret b, w').
Proof.
  unfold bind. destruct (m w) as [[a | e |] w1]; intros H; try discriminate.
  exists a, w1. split; [reflexivity | exact H].
Qed.

(** What the transformer returns is [None] or a normalized record. *)
Lemma transform_result (stix_indicator : pyval) (w w' : World) (v : pyval) :
  Ingestor.transform_stix_to_ioc stix_indicator w = (Ret v, w') ->
  v = PNone \/ normalized v.
Proof.
  unfold Ingestor.transform_stix_to_ioc, bind, lift, print, ret.
  destruct (py_get_default stix_indicator "pattern" (PStr "")) as [pattern | |];
    try discriminate.
  destruct (py_in "domain-name" pattern) as [[|] | |]; try discriminate.
  { destruct (quoted_value pattern) as [value | |]; try discriminate.
    intros [= <- _]. right. exists "domain", value. auto. }
  destruct (py_in "ipv4-addr" pattern) as [[|] | |]; try discriminate.
  { destruct (quoted_value pattern) as [value | |]; try discriminate.
    intros [= <- _]. right. exists "ipv4", value. auto. }
  destruct (py_in "file:hashes" pattern) as [[|] | |]; try discriminate.
  { destruct (quoted_value pattern) as [value | |]; try discriminate.
    intros [= <- _]. right. exists "sha256", value. auto. }
  intros [= <- _]. left. reflexivity.
Qed.

Lemma collect_block_normalized (objects : list pyval) :
  forall (iocs out : list pyval) (w w' : World),
    Forall normalized iocs ->
    Ingestor.collect_block objects iocs w = (Ret out, w') ->
    Forall normalized out.
Proof.
  induction objects as [|obj objects IH]; intros iocs out w w' Hiocs Hrun;
    cbn [Ingestor.collect_block] in Hrun.
  - injection Hrun as <- _. exact Hiocs.
  - apply bind_ret_inv in Hrun as (ty & w1 & _ & Hrun).
    destruct (py_eq_str ty "indicator"); [|exact (IH _ _ _ _ Hiocs Hrun)].
    apply bind_ret_inv in Hrun as (ioc_data & w2 & Htransform & Hrun).
    destruct (truthy ioc_data) eqn:Ht; [|exact (IH _ _ _ _ Hiocs Hrun)].
    apply (IH _ _ _ _) in Hrun; [exact Hrun|].
    apply Forall_app. split; [exact Hiocs|]. constructor; [|constructor].
    destruct (transform_result _ _ _ _ Htransform) as [-> | Hn]; [discriminate | exact Hn].
Qed.

Lemma collect_blocks_normalized (blocks : list pyval) :
  forall (iocs out : list pyval) (w w' : World),
    Forall normalized iocs ->
    Ingestor.collect_blocks blocks iocs w = (Ret out, w') ->
    Forall normalized out.
Proof.
  induction blocks as [|block blocks IH]; intros iocs out w w' Hiocs Hrun;
    cbn [Ingestor.collect_blocks] in Hrun.
  - injection Hrun as <- _. exact Hiocs.
  - apply bind_ret_inv in Hrun as (_ & w1 & _ & Hrun).
    apply bind_ret_inv in Hrun as (objects & w2 & _ & Hrun).
    apply bind_ret_inv in Hrun as (iocs' & w3 & Hblock & Hrun).
    apply (IH _ _ _ _) in Hrun; [exact Hrun|].
    exact (collect_block_normalized _ _ _ _ _ Hiocs Hblock).
Qed.

Lemma get_stix_objects_normalized
    (collection : string) (stix_objects iocs : list pyval) (w w' : World) :
  Ingestor.get_stix_objects collection stix_objects w = (Ret iocs, w') ->
  Forall normalized iocs.
Proof.
  unfold Ingestor.get_stix_objects. intros Hrun.
  apply bind_ret_inv in Hrun as (_ & w1 & _ & Hrun).
  exact (collect_blocks_normalized _ _ _ _ _ (Forall_nil _) Hrun).
Qed.

(** X13.  Whatever the blocks of the feed hold, every record that
    [get_stix_objects] returns is a normalized record: its type is domain,
    ipv4 or sha256, its action is detect and its source is TAXII Import;
    indicators that the transformer discards leave no trace in the list. *)
Theorem X13_collected_records_are_normalized
    (collection : string) (stix_objects iocs : list pyval) (w w' : World) :
  Ingestor.get_stix_objects collection stix_objects w = (Ret iocs, w') ->
  Forall normalized iocs.
Proof. apply get_stix_objects_normalized. Qed.

Lemma X13_collected_records_are_normalized_witness :
  Forall normalized
    [Ingestor.ioc_dict "ipv4" "198.51.100.7"; Ingestor.ioc_dict "domain" "example.test"].
Proof.
  apply (X13_collected_records_are_normalized "feed"
           [PList [indicator "[ipv4-addr:value = '198.51.100.7']";
                   indicator "[url:value = 'http://example.test/']"];
            PList [PDict [("type", PStr "malware")];
                   indicator "[domain-name:value = 'example.test']"]]
           _ idle
           (snd (Ingestor.get_stix_objects "feed"
                   [PList [indicator "[ipv4-addr:value = '198.51.100.7']";
                           indicator "[url:value = 'http://example.test/']"];
                    PList [PDict [("type", PStr "malware")];
                           indicator "[domain-name:value = 'example.test']"]]
                   idle))).
  reflexivity.
Defined.

(** One turn of the push loop of the first script, on an answer. *)
Lemma legacy_push_turn (B : Type) (iocs : list pyval) (token ioc : pyval)
    (w : World) (latency : Z) (r : Response) (rest : list NetEvent) :
  net w = Answer latency r :: rest ->
  exists w1 : World,
    Ingestor.push_iocs_to_crowdstrike (ioc :: iocs) token w
    = Ingestor.push_iocs_to_crowdstrike iocs token w1
    /\ net w1 = rest
    /\ sent w1 = (sent w ++ [legacy_post token ioc])%list.
Proof.
  intros Hnet. unfold Ingestor.push_iocs_to_crowdstrike. cbn [for_each]. cbv zeta.
  rewrite bind_assoc, bind_print. cbv beta. rewrite bind_assoc.
  rewrite (bind_send_answered _ _ _ _ latency r rest) by exact Hnet.
  destruct (status_code r =? 201); rewrite bind_print;
    (eexists; split; [reflexivity|]; split; reflexivity).
Qed.

(** X14.  When every push is answered, with whatever status, the first
    script posts every record of the list, in order, each as the JSON body
    of one request with the bearer token, and returns normally: a record
    the store rejects does not stop the ones after it. *)
Theorem X14_legacy_push_posts_all
    (iocs : list pyval) (token : pyval) (w : World) (replies rest : list NetEvent) :
  answers replies ->
  List.length replies = List.length iocs ->
  net w = (replies ++ rest)%list ->
  exists w' : World,
    Ingestor.push_iocs_to_crowdstrike iocs token w = (Ret tt, w')
    /\ net w' = rest
    /\ sent w' = (sent w ++ map (legacy_post token) iocs)%list.
Proof.
  revert w replies.
  induction iocs as [|ioc iocs IH]; intros w replies Hans Hlen Hnet.
  - destruct replies; [|discriminate]. exists w. cbn. rewrite app_nil_r. auto.
  - destruct replies as [|ev replies]; [discriminate|].
    inversion Hans as [|? ? (latency & r & ->) Hans']; subst.
    destruct (legacy_push_turn unit iocs token ioc w latency r (replies ++ rest)%list Hnet)
      as (w1 & Hturn & Hnet1 & Hsent1).
    destruct (IH w1 replies Hans' (eq_add_S _ _ Hlen) Hnet1) as (w' & Hrun & Hnet' & Hsent').
    exists w'. rewrite Hturn, Hrun. repeat split; auto.
    rewrite Hsent', Hsent1, <- app_assoc. reflexivity.
Qed.

Lemma X14_legacy_push_posts_all_witness :
  exists w' : World,
    Ingestor.push_iocs_to_crowdstrike
      [Ingestor.ioc_dict "ipv4" "198.51.100.7"; Ingestor.ioc_dict "domain" "example.test"]
      (PStr "t0k3n")
      (mkWorld [refused 400 "bad request"; Answer 0 (mkResponse 201 "" None); token_reply]
         [] 0 [] [] [])
    = (Ret tt, w')
    /\ net w' = [token_reply]
    /\ sent w'
       = ([] ++ map (legacy_post (PStr "t0k3n"))
                  [Ingestor.ioc_dict "ipv4" "198.51.100.7";
                   Ingestor.ioc_dict "domain" "example.test"])%list.
Proof.
  apply (X14_legacy_push_posts_all
           [Ingestor.ioc_dict "ipv4" "198.51.100.7"; Ingestor.ioc_dict "domain" "example.test"]
           (PStr "t0k3n")
           (mkWorld [refused 400 "bad request"; Answer 0 (mkResponse 201 "" None); token_reply]
              [] 0 [] [] [])
           [refused 400 "bad request"; Answer 0 (mkResponse 201 "" None)] [token_reply]).
  - repeat constructor; eexists _, _; reflexivity.
  - reflexivity.
  - reflexivity.
Defined.

(** X15.  The first script has no retry: when the network fails on a
    push, after pushes that were answered, the exception leaves
    [push_iocs_to_crowdstrike] at once; the record in hand was sent, the
    records after it never are. *)
Theorem X15_legacy_push_stops_at_fault
    (done : list pyval) (ioc : pyval) (todo : list pyval) (token : pyval) (w : World)
    (replies : list NetEvent) (latency : Z) (e : exn) (rest : list NetEvent) :
  answers replies ->
  List.length replies = List.length done ->
  net w = (replies ++ Fault latency e :: rest)%list ->
  exists w' : World,
    Ingestor.push_iocs_to_crowdstrike (done ++ ioc :: todo) token w = (Raise e, w')
    /\ net w' = rest
    /\ sent w' = (sent w ++ map (legacy_post token) (done ++ [ioc]))%list.
Proof.
  revert w replies.
  induction done as [|first done IH]; intros w replies Hans Hlen Hnet.
  - destruct replies; [|discriminate]. cbn [app] in *.
    unfold Ingestor.push_iocs_to_crowdstrike. cbn [for_each]. cbv zeta.
    rewrite bind_assoc, bind_print. cbv beta. rewrite bind_assoc.
    unfold bind at 1, requests_send at 1. cbn [net]. rewrite Hnet.
    eexists. split; [reflexivity|]. split; reflexivity.
  - destruct replies as [|ev replies]; [discriminate|].
    inversion Hans as [|? ? (latency' & r & ->) Hans']; subst.
    cbn [app] in *.
    destruct (legacy_push_turn unit (done ++ ioc :: todo) token first w latency' r
                (replies ++ Fault latency e :: rest)%list Hnet)
      as (w1 & Hturn & Hnet1 & Hsent1).
    destruct (IH w1 replies Hans' (eq_add_S _ _ Hlen) Hnet1) as (w' & Hrun & Hnet' & Hsent').
    exists w'. rewrite Hturn, Hrun. repeat split; auto.
    rewrite Hsent', Hsent1, <- app_assoc. reflexivity.
Qed.

Lemma X15_legacy_push_stops_at_fault_witness :
  exists w' : World,
    Ingestor.push_iocs_to_crowdstrike
      ([Ingestor.ioc_dict "ipv4" "198.51.100.7"]
       ++ Ingestor.ioc_dict "domain" "example.test"
       :: [Ingestor.ioc_dict "sha256" "abcd"])
      (PStr "t0k3n")
      (mkWorld [Answer 0 (mkResponse 201 "" None); Fault 0 ConnectionError; token_reply]
         [] 0 [] [] [])
    = (Raise ConnectionError, w')
    /\ net w' = [token_reply]
    /\ sent w'
       = ([] ++ map (legacy_post (PStr "t0k3n"))
                  ([Ingestor.ioc_dict "ipv4" "198.51.100.7"]
                   ++ [Ingestor.ioc_dict "domain" "example.test"]))%list.
Proof.
  apply (X15_legacy_push_stops_at_fault
           [Ingestor.ioc_dict "ipv4" "198.51.100.7"]
           (Ingestor.ioc_dict "domain" "example.test")
           [Ingestor.ioc_dict "sha256" "abcd"] (PStr "t0k3n")
           (mkWorld [Answer 0 (mkResponse 201 "" None); Fault 0 ConnectionError; token_reply]
              [] 0 [] [] [])
           [Answer 0 (mkResponse 201 "" None)] 0 ConnectionError [token_reply]).
  - repeat constructor; eexists _, _; reflexivity.
  - reflexivity.
  - reflexivity.
Defined.

Lemma transform_sends_nothing (stix_indicator : pyval) :
  only_sends (fun _ => False) (Ingestor.transform_stix_to_ioc stix_indicator).
Proof. unfold Ingestor.transform_stix_to_ioc. sends. Qed.

Lemma collect_block_sends_nothing (objects : list pyval) :
  forall iocs : list pyval,
    only_sends (fun _ => False) (Ingestor.collect_block objects iocs).
Proof.
  induction objects as [|obj objects IH]; intros iocs; cbn [Ingestor.collect_block].
  - sends.
  - sends; try apply transform_sends_nothing; apply IH.
Qed.

Lemma get_stix_objects_sends_nothing (collection : string) (stix_objects : list pyval) :
  only_sends (fun _ => False) (Ingestor.get_stix_objects collection stix_objects).
Proof.
  unfold Ingestor.get_stix_objects. apply only_sends_bind; [sends | intros _].
  generalize (@nil pyval).
  induction stix_objects as [|block blocks IH]; intros iocs;
    cbn [Ingestor.collect_blocks].
  - sends.
  - sends; try apply collect_block_sends_nothing; apply IH.
Qed.

(** The pushes of the first script are those of a front part of the list. *)
Lemma legacy_push_prefix (iocs : list pyval) (token : pyval) :
  forall w : World,
    exists k : nat,
      sent (snd (Ingestor.push_iocs_to_crowdstrike iocs token w))
      = (sent w ++ map (legacy_post token) (firstn k iocs))%list.
Proof.
  induction iocs as [|ioc iocs IH]; intros w.
  - exists 0%nat. cbn. rewrite app_nil_r. reflexivity.
  - destruct (net w) as [|[latency r | latency e] rest] eqn:Hnet.
    + exists 1%nat. unfold Ingestor.push_iocs_to_crowdstrike. cbn [for_each]. cbv zeta.
      rewrite bind_assoc, bind_print. cbv beta. rewrite bind_assoc.
      unfold bind at 1, requests_send at 1. cbn [net]. rewrite Hnet. reflexivity.
    + destruct (legacy_push_turn unit iocs token ioc w latency r rest Hnet)
        as (w1 & Hturn & _ & Hsent1).
      destruct (IH w1) as (k & Hk). exists (S k).
      rewrite Hturn, Hk, Hsent1, <- app_assoc. reflexivity.
    + exists 1%nat. unfold Ingestor.push_iocs_to_crowdstrike. cbn [for_each]. cbv zeta.
      rewrite bind_assoc, bind_print. cbv beta. rewrite bind_assoc.
      unfold bind at 1, requests_send at 1. cbn [net]. rewrite Hnet. reflexivity.
Qed.

Lemma legacy_token_sends_one (w : World) :
  sent (snd (Ingestor.get_crowdstrike_token Ingestor.CLIENT_ID Ingestor.CLIENT_SECRET w))
  = (sent w ++ [legacy_token_request])%list.
Proof.
  unfold Ingestor.get_crowdstrike_token. cbv zeta.
  rewrite bind_send_sent; [reflexivity|].
  intros r. sends.
Qed.

(** When every push is answered the pushes are those of the whole list. *)
Lemma legacy_push_answered (iocs : list pyval) (token : pyval) :
  forall (w : World) (replies rest : list NetEvent),
    answers replies ->
    List.length replies = List.length iocs ->
    net w = (replies ++ rest)%list ->
    fst (Ingestor.push_iocs_to_crowdstrike iocs token w) = Ret tt
    /\ sent (snd (Ingestor.push_iocs_to_crowdstrike iocs token w))
       = (sent w ++ map (legacy_post token) iocs)%list.
Proof.
  induction iocs as [|ioc iocs IH]; intros w replies rest Hans Hlen Hnet.
  - cbn. rewrite app_nil_r. split; reflexivity.
  - destruct replies as [|ev replies]; [discriminate|].
    inversion Hans as [|? ? (latency & r & ->) Hans']; subst.
    destruct (legacy_push_turn unit iocs token ioc w latency r (replies ++ rest)%list Hnet)
      as (w1 & Hturn & Hnet1 & Hsent1).
    destruct (IH w1 replies rest Hans' (eq_add_S _ _ Hlen) Hnet1) as (Hret & Hsent).
    rewrite Hturn. split; [exact Hret|].
    rewrite Hsent, Hsent1, <- app_assoc. reflexivity.
Qed.

(** X16.  In a run of the first script that obtains a token, the requests
    the script sends are the token request, once, and after it the pushes
    of the records that [get_stix_objects] returned, taken from the head of
    that list in its order and each with the token received: a front part
    of the list in any case, the whole list when every push is answered.
    Every such record is normalized: no record of another type, and no
    discarded indicator, reaches the store. *)
Theorem X16_legacy_run_pushes_in_order
    (collection : string) (stix_objects : list pyval) (w w1 w2 : World)
    (token : pyval) (records : list pyval) :
  Ingestor.get_crowdstrike_token Ingestor.CLIENT_ID Ingestor.CLIENT_SECRET w
  = (Ret token, w1) ->
  truthy token = true ->
  Ingestor.get_stix_objects collection stix_objects w1 = (Ret records, w2) ->
  Forall normalized records
  /\ (exists k : nat,
         sent (snd (Ingestor.main collection stix_objects w))
         = (sent w ++ legacy_token_request
            :: map (legacy_post token) (firstn k records))%list)
  /\ (forall replies rest : list NetEvent,
         answers replies ->
         List.length replies = List.length records ->
         net w2 = (replies ++ rest)%list ->
         fst (Ingestor.main collection stix_objects w) = Ret tt
         /\ sent (snd (Ingestor.main collection stix_objects w))
            = (sent w ++ legacy_token_request :: map (legacy_post token) records)%list).
Proof.
  intros Htoken Htruthy Hget.
  pose proof (legacy_token_sends_one w) as Hsent1. rewrite Htoken in Hsent1.
  pose proof (sends_nothing _ _ w1
                (get_stix_objects_sends_nothing collection stix_objects)) as Hquiet.
  rewrite Hget in Hquiet. cbn [snd] in Hsent1, Hquiet.
  assert (Hmain : Ingestor.main collection stix_objects w
                  = (if truthy (PList records)
                     then Ingestor.push_iocs_to_crowdstrike records token
                     else ret tt) w2).
  { unfold Ingestor.main. rewrite (bind_run _ _ _ _ _ _ _ Htoken).
    rewrite Htruthy. cbn [negb]. rewrite (bind_run _ _ _ _ _ _ _ Hget). reflexivity. }
  rewrite Hmain. split; [exact (get_stix_objects_normalized _ _ _ _ _ Hget)|].
  destruct records as [|record records].
  - cbn [truthy ret fst snd map firstn]. split.
    + exists 0%nat. rewrite Hquiet, Hsent1. reflexivity.
    + intros _ _ _ _ _. rewrite Hquiet, Hsent1. split; reflexivity.
  - cbn [truthy]. split.
    + destruct (legacy_push_prefix (record :: records) token w2) as (k & Hk).
      exists k. rewrite Hk, Hquiet, Hsent1, <- app_assoc. reflexivity.
    + intros replies rest Hans Hlen Hnet.
      destruct (legacy_push_answered (record :: records) token w2 replies rest
                  Hans Hlen Hnet) as (Hret & Hsent).
      split; [exact Hret|].
      rewrite Hsent, Hquiet, Hsent1, <- app_assoc. reflexivity.
Qed.

Lemma X16_legacy_run_pushes_in_order_witness :
  fst (Ingestor.main "feed" legacy_blocks legacy_run) = Ret tt
  /\ sent (snd (Ingestor.main "feed" legacy_blocks legacy_run))
     = ([] ++ legacy_token_request
        :: map (legacy_post (PStr "t0k3n"))
             [Ingestor.ioc_dict "ipv4" "198.51.100.7";
              Ingestor.ioc_dict "domain" "example.test"])%list.
Proof.
  apply (proj2 (proj2 (X16_legacy_run_pushes_in_order "feed" legacy_blocks legacy_run
                         legacy_run_token legacy_run_collected (PStr "t0k3n")
                         [Ingestor.ioc_dict "ipv4" "198.51.100.7";
                          Ingestor.ioc_dict "domain" "example.test"]
                         eq_refl eq_refl eq_refl))
           [refused 400 "bad request"; Answer 0 (mkResponse 201 "" None)] []).
  - repeat constructor; eexists _, _; reflexivity.
  - reflexivity.
  - reflexivity.
Defined.

(** ** The reconciliation stage as a whole *)

Lemma only_sends_for_each_in (A : Type) (P : Request -> Prop) (xs : list A)
    (body : A -> M unit) :
  (forall x, In x xs -> only_sends P (body x)) -> only_sends P (for_each xs body).
Proof.
  induction xs as [|x xs IH]; intros H; cbn [for_each].
  - apply only_sends_ret.
  - apply only_sends_bind; [apply H; left; reflexivity | intros _].
    apply IH. intros y Hy. apply H. right. exact Hy.
Qed.

(** X17.  Whatever the network does, the reconciliation of a list sends
    nothing but existence queries and create or update requests for values
    of that list, all of them with the token it was given; every create
    and update goes to the one indicator endpoint. *)
Theorem X17_reconciliation_stays_on_its_list
    (cfg : Config) (fuel : nat) (iocs : list string) (access_token : pyval) :
  only_sends (reconciles iocs access_token)
    (Taxii.push_iocs_to_crowdstrike cfg fuel iocs access_token).
Proof.
  unfold Taxii.push_iocs_to_crowdstrike.
  apply only_sends_bind; [sends | intros _].
  apply only_sends_for_each_in. intros ioc Hin.
  unfold Taxii.push_ioc, Taxii.calculate_expiration_date. cbv zeta.
  apply only_sends_bind; [sends | intros _].
  apply only_sends_bind; [sends | intros expiration_date].
  apply only_sends_bind; [|intros found].
  { eapply only_sends_weaken; [|apply check_only_queries].
    intros q Hq. exists ioc. split; [exact Hin | left; exact Hq]. }
  apply only_sends_bind; [|intros response; sends; apply only_sends_rate_limit].
  destruct found; (apply only_sends_bind; [sends | intros _]);
    apply only_sends_send; exists ioc; (split; [exact Hin|]); right.
  - exists true, expiration_date. reflexivity.
  - exists false, expiration_date. reflexivity.
Qed.

Lemma push_iocs_within (cfg : Config) (fuel n : nat) (iocs : list string)
    (access_token : pyval) :
  (n < fuel)%nat ->
  within n n (Taxii.push_iocs_to_crowdstrike cfg fuel iocs access_token).
Proof.
  intros Hn. unfold Taxii.push_iocs_to_crowdstrike.
  apply within_seq; [fuel | intros _].
  apply within_for_each. intros x. apply push_ioc_within. exact Hn.
Qed.

(** X18.  With a token and a list from the poll that is not empty, [main]
    reconciles exactly that list with exactly that token, under [retry],
    and then writes its closing entry and returns normally whatever became
    of the reconciliation: three failed attempts included, the failure of
    the push stage does not show in the outcome of the run. *)
Theorem X18_main_swallows_push_failure
    (cfg : Config) (fuel : nat) (w w1 w2 : World) (r : option pyval)
    (ioc : string) (iocs : list string) :
  Taxii.retry (Taxii.get_crowdstrike_token cfg)
    (logged [Lit "TAXII to CrowdStrike IOC ingestion started."] w) = (Ret r, w1) ->
  truthy (Taxii.token_of r) = true ->
  Taxii.retry (Taxii.poll_taxii_server cfg fuel) w1 = (Ret (Some (ioc :: iocs)), w2) ->
  (List.length (net w2) < fuel)%nat ->
  Taxii.main cfg fuel w
  = (Ret tt,
     logged [Lit "IOC ingestion and management process complete."]
       (snd (Taxii.retry
               (Taxii.push_iocs_to_crowdstrike cfg fuel (ioc :: iocs) (Taxii.token_of r))
               w2))).
Proof.
  intros Htoken Htruthy Hpoll Hfuel.
  unfold Taxii.main. run.
  rewrite (bind_run _ _ _ _ _ _ _ Htoken). cbv zeta. rewrite Htruthy. cbn [negb].
  rewrite (bind_run _ _ _ _ _ _ _ Hpoll). cbv beta iota.
  pose proof (retry_no_raise _
                (Taxii.push_iocs_to_crowdstrike cfg fuel (ioc :: iocs) (Taxii.token_of r))
                w2) as Hraise.
  destruct (retry_within _ _ _
              (push_iocs_within cfg fuel (List.length (net w2)) (ioc :: iocs)
                 (Taxii.token_of r) Hfuel) w2 (Nat.le_refl _)) as [Hout _].
  rewrite bind_assoc. unfold bind at 1.
  destruct (Taxii.retry
              (Taxii.push_iocs_to_crowdstrike cfg fuel (ioc :: iocs) (Taxii.token_of r)) w2)
    as [[outcome | e |] w3]; cbn [fst snd] in *.
  - run. reflexivity.
  - exfalso. exact (Hraise e eq_refl).
  - contradiction.
Qed.

Lemma X18_main_swallows_push_failure_witness :
  Taxii.main cfg0 4 push_fails
  = (Ret tt,
     logged [Lit "IOC ingestion and management process complete."]
       (snd (Taxii.retry
               (Taxii.push_iocs_to_crowdstrike cfg0 4 ["198.51.100.7"]
                  (Taxii.token_of (Some (PStr "t0k3n"))))
               push_fails_polled))).
Proof.
  apply (X18_main_swallows_push_failure cfg0 4 push_fails push_fails_token
           push_fails_polled (Some (PStr "t0k3n")) "198.51.100.7" []).
  - vm_compute. reflexivity.
  - reflexivity.
  - vm_compute. reflexivity.
  - vm_compute. lia.
Defined.

(** In that run the three attempts of the push stage all fail, after
    waits of 5, 10 and 20 seconds, and the run still ends normally. *)
Example push_fails_outcome :
  fst (Taxii.main cfg0 4 push_fails) = Ret tt
  /\ fst (Taxii.retry
            (Taxii.push_iocs_to_crowdstrike cfg0 4 ["198.51.100.7"] (PStr "t0k3n"))
            push_fails_polled) = Ret None
  /\ slept (snd (Taxii.main cfg0 4 push_fails)) = [2; 5; 10; 20].
Proof. repeat split; vm_compute; reflexivity. Qed.
